(** * FraudCallDetector: the conversion scripts, embedded and verified

    The repository is a handful of linear Python scripts.  The parts that
    carry logic are

    - the mean pooling and L2 normalisation of the ONNX test inference
      (scripts/convert_minilm_to_onnx.py, step 6),
    - the vocabulary and tokenizer-configuration export (steps 4 and 5),
    - the quantisation fallback (step 3) and the way failures travel through
      the script,
    - the nearest-reference classification at the end of
      scripts/convert_minilm_to_tflite.py and its _fixed variant,
    - the placeholder embeddings of scripts/generate_embeddings_simple.py.

    Numbers.  NumPy computes in float32.  Two models of its arithmetic are
    used.  Which entries are combined, what broadcasting accepts, where a
    division by zero happens and what a comparison decides is stated over
    [NpFloat]: a finite value is a real number, the arithmetic on finite
    values is exact, and of IEEE 754 the three non-finite results are kept
    (two infinities and NaN), because a division by zero produces them
    instead of raising.  How close to 1 the norm of a normalised row is
    depends on rounding, overflow and underflow, and is stated over
    [Float32]: IEEE 754 binary32 arithmetic. *)

From Stdlib Require Import Reals Lra Lia List ZArith Bool Ascii.
From Stdlib Require String.
From Stdlib Require Import Permutation Sorted.
From Stdlib Require Import SpecFloat.
Import ListNotations.

Set Implicit Arguments.

(* ================================================================== *)
(** * Part I: definitions *)
(* ================================================================== *)

(** ** Floating-point values, up to rounding *)

Module NpFloat.

Local Open Scope R_scope.

Inductive fval : Type :=
| Fin (r : R)
| PInf
| NInf
| NaN.

(** Sign of a real, as a three-way comparison with zero. *)
Definition sgn (r : R) : comparison :=
  match total_order_T r 0 with
  | inleft (left _) => Lt
  | inleft (right _) => Eq
  | inright _ => Gt
  end.

Definition is_finite (x : fval) : bool :=
  match x with Fin _ => true | _ => false end.

Definition fadd (x y : fval) : fval :=
  match x, y with
  | NaN, _ | _, NaN => NaN
  | Fin a, Fin b => Fin (a + b)
  | PInf, NInf | NInf, PInf => NaN
  | PInf, _ | _, PInf => PInf
  | NInf, _ | _, NInf => NInf
  end.

(** An infinity times a finite [a]: the sign of [a] decides, zero gives NaN. *)
Definition inf_times (pos : bool) (a : R) : fval :=
  match sgn a with
  | Eq => NaN
  | Gt => if pos then PInf else NInf
  | Lt => if pos then NInf else PInf
  end.

Definition fmul (x y : fval) : fval :=
  match x, y with
  | NaN, _ | _, NaN => NaN
  | Fin a, Fin b => Fin (a * b)
  | PInf, Fin a | Fin a, PInf => inf_times true a
  | NInf, Fin a | Fin a, NInf => inf_times false a
  | PInf, PInf | NInf, NInf => PInf
  | PInf, NInf | NInf, PInf => NInf
  end.

(** Division never raises in NumPy: [0/0] is NaN, [a/0] an infinity with the
    sign of [a] (the zero divisors of the scripts are norms, that is +0). *)
Definition fdiv (x y : fval) : fval :=
  match x, y with
  | NaN, _ | _, NaN => NaN
  | Fin a, Fin b =>
      match sgn b with
      | Eq => match sgn a with Eq => NaN | Gt => PInf | Lt => NInf end
      | _ => Fin (a / b)
      end
  | Fin _, PInf | Fin _, NInf => Fin 0
  | PInf, Fin b => match sgn b with Lt => NInf | _ => PInf end
  | NInf, Fin b => match sgn b with Lt => PInf | _ => NInf end
  | _, _ => NaN
  end.

Definition fsqrt (x : fval) : fval :=
  match x with
  | Fin a => match sgn a with Lt => NaN | _ => Fin (sqrt a) end
  | PInf => PInf
  | NInf | NaN => NaN
  end.

(** [np.maximum]: NaN propagates. *)
Definition fmaximum (x y : fval) : fval :=
  match x, y with
  | NaN, _ | _, NaN => NaN
  | PInf, _ | _, PInf => PInf
  | NInf, z | z, NInf => z
  | Fin a, Fin b => Fin (Rmax a b)
  end.

(** [add.reduce] over the indices [0 .. n-1], accumulating left to right. *)
Fixpoint reduce_add (n : nat) (f : nat -> fval) : fval :=
  match n with
  | O => Fin 0
  | S n' => fadd (reduce_add n' f) (f n')
  end.

(** The finite part of a value (0 for the non-finite ones). *)
Definition to_R (x : fval) : R :=
  match x with Fin r => r | _ => 0 end.

(** The same reduction on real numbers. *)
Fixpoint Rsum (n : nat) (f : nat -> R) : R :=
  match n with
  | O => 0
  | S n' => Rsum n' f + f n'
  end.

End NpFloat.

(** ** NumPy arrays of rank 2 and 3: a shape and an item function

    Items outside the shape are never read by the operations below. *)

Module Numpy.

Import NpFloat.

Record array2 (A : Type) : Type := Array2 {
  rows : nat;
  cols : nat;
  item2 : nat -> nat -> A
}.

Record array3 (A : Type) : Type := Array3 {
  dim0 : nat;
  dim1 : nat;
  dim2 : nat;
  item3 : nat -> nat -> nat -> A
}.

Definition shape3 {A} (a : array3 A) : nat * nat * nat :=
  (dim0 a, dim1 a, dim2 a).

(** Building arrays from nested lists (used for concrete inputs). *)
Definition of_rows {A} (d : A) (c : nat) (l : list (list A)) : array2 A :=
  Array2 (length l) c (fun i k => nth k (nth i l []) d).

Definition of_blocks {A} (d : A) (s h : nat) (l : list (list (list A)))
  : array3 A :=
  Array3 (length l) s h (fun i j k => nth k (nth j (nth i l []) []) d).

(** Broadcasting of one axis: a length-1 axis is stretched. *)
Definition bdim (a b : nat) : option nat :=
  if Nat.eqb a b then Some a
  else if Nat.eqb a 1 then Some b
  else if Nat.eqb b 1 then Some a
  else None.

Definition bidx (d i : nat) : nat := if Nat.eqb d 1 then O else i.

(** [np.expand_dims(a, -1)] on a rank-2 array. *)
Definition expand_dims {A} (a : array2 A) : array3 A :=
  Array3 (rows a) (cols a) 1 (fun i j _ => item2 a i j).

(** [np.broadcast_to(a, shape)]: every axis of [a] must have the target
    length or length 1; otherwise NumPy raises ValueError ([None]). *)
Definition broadcast_to {A} (a : array3 A) (shape : nat * nat * nat)
  : option (array3 A) :=
  let '(t0, t1, t2) := shape in
  if (Nat.eqb (dim0 a) t0 || Nat.eqb (dim0 a) 1)
     && (Nat.eqb (dim1 a) t1 || Nat.eqb (dim1 a) 1)
     && (Nat.eqb (dim2 a) t2 || Nat.eqb (dim2 a) 1)
  then Some (Array3 t0 t1 t2
               (fun i j k => item3 a (bidx (dim0 a) i) (bidx (dim1 a) j)
                                     (bidx (dim2 a) k)))
  else None.

(** [.astype(np.float32)] on an integer array. *)
Definition astype_float32 (a : array3 Z) : array3 fval :=
  Array3 (dim0 a) (dim1 a) (dim2 a) (fun i j k => Fin (IZR (item3 a i j k))).

(** Element-wise binary operators with broadcasting. *)
Definition binop3 (op : fval -> fval -> fval) (a b : array3 fval)
  : option (array3 fval) :=
  match bdim (dim0 a) (dim0 b), bdim (dim1 a) (dim1 b),
        bdim (dim2 a) (dim2 b) with
  | Some d0, Some d1, Some d2 =>
      Some (Array3 d0 d1 d2
              (fun i j k =>
                 op (item3 a (bidx (dim0 a) i) (bidx (dim1 a) j)
                             (bidx (dim2 a) k))
                    (item3 b (bidx (dim0 b) i) (bidx (dim1 b) j)
                             (bidx (dim2 b) k))))
  | _, _, _ => None
  end.

Definition binop2 (op : fval -> fval -> fval) (a b : array2 fval)
  : option (array2 fval) :=
  match bdim (rows a) (rows b), bdim (cols a) (cols b) with
  | Some r, Some c =>
      Some (Array2 r c
              (fun i k =>
                 op (item2 a (bidx (rows a) i) (bidx (cols a) k))
                    (item2 b (bidx (rows b) i) (bidx (cols b) k))))
  | _, _ => None
  end.

Definition multiply3 := binop3 fmul.
Definition divide2 := binop2 fdiv.

(** [np.sum(a, axis=1)] and [a.sum(axis=1)] on a rank-3 array. *)
Definition sum_axis1 (a : array3 fval) : array2 fval :=
  Array2 (dim0 a) (dim2 a)
         (fun i k => reduce_add (dim1 a) (fun j => item3 a i j k)).

(** [np.clip(a, a_min=lo, a_max=None)]. *)
Definition clip_min (a : array2 fval) (lo : R) : array2 fval :=
  Array2 (rows a) (cols a) (fun i k => fmaximum (item2 a i k) (Fin lo)).

(** [np.linalg.norm(a, axis=1, keepdims=True)]:
    [sqrt(add.reduce((x.conj() * x).real, axis=1, keepdims=True))]. *)
Definition linalg_norm_axis1 (a : array2 fval) : array2 fval :=
  Array2 (rows a) 1
         (fun i _ =>
            fsqrt (reduce_add (cols a)
                              (fun k => fmul (item2 a i k) (item2 a i k)))).

(** The L2 norm of row [i] of a rank-2 array. *)
Definition row_norm (a : array2 fval) (i : nat) : fval :=
  fsqrt (reduce_add (cols a) (fun k => fmul (item2 a i k) (item2 a i k))).

End Numpy.

(** ** scripts/convert_minilm_to_onnx.py, step 6: mean pooling and
    normalisation of the test inference (lines 175-195)

    [None] stands for the ValueError NumPy raises on shapes that do not
    broadcast. *)

Module OnnxPooling.

Import NpFloat Numpy.
Local Open Scope R_scope.

Notation "x <- e ;; k" :=
  (match e with Some x => k | None => None end)
  (at level 61, e at next level, right associativity, only parsing).

(** Lines 180-184: expand the attention mask to the hidden-state shape. *)
Definition input_mask_expanded (last_hidden_state : array3 fval)
           (attention_mask : array2 Z) : option (array3 fval) :=
  expanded <- broadcast_to (expand_dims attention_mask)
                           (shape3 last_hidden_state) ;;
  Some (astype_float32 expanded).

(** Line 187. *)
Definition sum_embeddings (last_hidden_state mask_expanded : array3 fval)
  : option (array2 fval) :=
  prod <- multiply3 last_hidden_state mask_expanded ;;
  Some (sum_axis1 prod).

(** Line 188. *)
Definition sum_mask (mask_expanded : array3 fval) : array2 fval :=
  clip_min (sum_axis1 mask_expanded) 1e-9.

(** Lines 180-191: the mean-pooled embedding, before normalisation. *)
Definition mean_pooling (last_hidden_state : array3 fval)
           (attention_mask : array2 Z) : option (array2 fval) :=
  mask_expanded <- input_mask_expanded last_hidden_state attention_mask ;;
  sums <- sum_embeddings last_hidden_state mask_expanded ;;
  divide2 sums (sum_mask mask_expanded).

(** Lines 194-195. *)
Definition norm (embedding : array2 fval) : array2 fval :=
  linalg_norm_axis1 embedding.

Definition normalize (embedding : array2 fval) : option (array2 fval) :=
  divide2 embedding (norm embedding).

(** Lines 180-195: the sentence embedding of the test inference. *)
Definition sentence_embedding (last_hidden_state : array3 fval)
           (attention_mask : array2 Z) : option (array2 fval) :=
  embedding <- mean_pooling last_hidden_state attention_mask ;;
  normalize embedding.

(** *** The computation as the specification words it (section 4.1)

    Per batch element [i]: the mask, broadcast along the hidden axis; the
    sum over the sequence axis of hidden state times mask; the division by
    the mask sum clamped below at 1e-9; the division by the L2 norm. *)

Definition spec_mask (attention_mask : array2 Z) (i j : nat) : fval :=
  Fin (IZR (item2 attention_mask i j)).

Definition spec_masked_sum (h : array3 fval) (m : array2 Z) (i k : nat)
  : fval :=
  reduce_add (dim1 h) (fun j => fmul (item3 h i j k) (spec_mask m i j)).

Definition spec_mask_sum (h : array3 fval) (m : array2 Z) (i : nat) : fval :=
  reduce_add (dim1 h) (fun j => spec_mask m i j).

Definition spec_mean (h : array3 fval) (m : array2 Z) (i k : nat) : fval :=
  fdiv (spec_masked_sum h m i k) (fmaximum (spec_mask_sum h m i) (Fin 1e-9)).

Definition spec_l2 (h : array3 fval) (m : array2 Z) (i : nat) : fval :=
  fsqrt (reduce_add (dim2 h)
                    (fun k => fmul (spec_mean h m i k) (spec_mean h m i k))).

Definition spec_sentence_embedding (h : array3 fval) (m : array2 Z)
           (i k : nat) : fval :=
  fdiv (spec_mean h m i k) (spec_l2 h m i).

(** The unweighted arithmetic mean of the token vectors of batch row [i]. *)
Definition arithmetic_mean (h : array3 fval) (i k : nat) : fval :=
  fdiv (reduce_add (dim1 h) (fun j => item3 h i j k))
       (Fin (INR (dim1 h))).

(** Shapes: the mask has the batch and sequence dimensions of the hidden
    states. *)
Definition matching (h : array3 fval) (m : array2 Z) : Prop :=
  rows m = dim0 h /\ cols m = dim1 h.

End OnnxPooling.

(** ** scripts/convert_minilm_to_tflite.py (lines 83-88) and
    scripts/convert_minilm_to_tflite_fixed.py (lines 157-162): the
    nearest-reference classification

    The two scripts share the block verbatim.  [cosine_similarity] is
    scikit-learn's: it validates its arguments (at least one row and one
    column each, equal numbers of columns; ValueError otherwise, [None]
    here), L2-normalises every row (a zero norm is replaced by 1) and takes
    all pairwise dot products.  scikit-learn rejects non-finite input, so the
    arrays hold real numbers.  The arithmetic of this model is exact; what
    is stated over it is which scores are computed, how they are compared
    and which shapes are rejected, not the value of a rounded score. *)

Module Classifier.

Import NpFloat Numpy.
Local Open Scope R_scope.

Notation "x <- e ;; k" :=
  (match e with Some x => k | None => None end)
  (at level 61, e at next level, right associativity, only parsing).

Definition l2_norm (X : array2 R) (i : nat) : R :=
  sqrt (Rsum (cols X) (fun k => item2 X i k * item2 X i k)).

Definition handle_zeros (n : R) : R :=
  if Req_dec_T n 0 then 1 else n.

Definition normalize (X : array2 R) : array2 R :=
  Array2 (rows X) (cols X)
         (fun i k => item2 X i k / handle_zeros (l2_norm X i)).

Definition check_array (X : array2 R) : bool :=
  negb (Nat.eqb (rows X) 0) && negb (Nat.eqb (cols X) 0).

(** Similarity of row [i] of [X] and row [j] of [Y]. *)
Definition cos_sim (X Y : array2 R) (i j : nat) : R :=
  Rsum (cols X) (fun k => item2 (normalize X) i k * item2 (normalize Y) j k).

Definition cosine_similarity (X Y : array2 R) : option (array2 R) :=
  if check_array X && check_array Y && Nat.eqb (cols X) (cols Y)
  then Some (Array2 (rows X) (rows Y) (cos_sim X Y))
  else None.

(** The items of an array in row-major order. *)
Definition ravel (a : array2 R) : list R :=
  flat_map (fun i => map (item2 a i) (seq 0 (cols a))) (seq 0 (rows a)).

(** [a.max()]: the largest item; ValueError on an array without items. *)
Definition ndarray_max (a : array2 R) : option R :=
  match ravel a with
  | [] => None
  | x :: l => Some (fold_left Rmax l x)
  end.

Inductive label : Type := SCAM | LEGITIMATE.

(** ['SCAM' if scam_sim > legit_sim else 'LEGITIMATE']. *)
Definition classification (scam_sim legit_sim : R) : label :=
  if Rgt_dec scam_sim legit_sim then SCAM else LEGITIMATE.

Record result : Type := Result {
  scam_sim : R;
  legit_sim : R;
  verdict : label
}.

Definition classify (test_embedding scam_embeddings legitimate_embeddings
                     : array2 R) : option result :=
  scam_K <- cosine_similarity test_embedding scam_embeddings ;;
  scam_sim <- ndarray_max scam_K ;;
  legit_K <- cosine_similarity test_embedding legitimate_embeddings ;;
  legit_sim <- ndarray_max legit_K ;;
  Some (Result scam_sim legit_sim (classification scam_sim legit_sim)).

(** [v] is the largest cosine similarity between a row of the query and a
    row of the reference set. *)
Definition is_max_similarity (query refs : array2 R) (v : R) : Prop :=
  (exists i j, (i < rows query)%nat /\ (j < rows refs)%nat /\
               v = cos_sim query refs i j) /\
  (forall i j, (i < rows query)%nat -> (j < rows refs)%nat ->
               cos_sim query refs i j <= v).

(** One of the two scores: [cosine_similarity(query, refs).max()]. *)
Definition max_similarity (query refs : array2 R) : option R :=
  K <- cosine_similarity query refs ;;
  ndarray_max K.

(** The maximum of a list: a member that bounds all members. *)
Definition list_max_of (l : list R) (v : R) : Prop :=
  In v l /\ forall y, In y l -> y <= v.

(** Reordering of a reference set: [take_rows idx a] is [a[idx]]. *)
Definition take_rows (idx : list nat) (a : array2 R) : array2 R :=
  Array2 (length idx) (cols a) (fun i k => item2 a (nth i idx O) k).

End Classifier.

(** ** scripts/convert_minilm_to_onnx.py, steps 4 and 5: vocabulary and
    tokenizer-configuration export (lines 113-143)

    The tokenizer is the Hugging Face object the script loads; the script
    reads [get_vocab()] (a dict from token to id, here its items in
    insertion order), [vocab_size] and the special tokens with their ids.
    The library keeps the two apart: [vocab_size] is the size of the base
    vocabulary, [get_vocab()] also holds the tokens added to it.  The
    script loads the one checkpoint named on line 29 and adds no token to
    its tokenizer. *)

Module VocabExport.

Import String.
Local Open Scope string_scope.

Record Tokenizer : Type := {
  get_vocab : list (string * Z);
  vocab_size : Z;
  cls_token : string;
  sep_token : string;
  pad_token : string;
  unk_token : string;
  cls_token_id : Z;
  sep_token_id : Z;
  pad_token_id : Z;
  unk_token_id : Z
}.

Definition LF : ascii := "010"%char.
Definition newline : string := String LF EmptyString.

(** [sorted(vocab.items(), key=lambda x: x[1])]: a stable sort on the id.
    Insertion from the right puts an item before the items of equal id that
    followed it in the input. *)
Fixpoint insert_by_id (x : string * Z) (l : list (string * Z))
  : list (string * Z) :=
  match l with
  | [] => [x]
  | y :: l' => if Z.leb (snd x) (snd y) then x :: l
               else y :: insert_by_id x l'
  end.

Definition sorted_by_id (l : list (string * Z)) : list (string * Z) :=
  fold_right insert_by_id [] l.

Definition sorted_vocab (tokenizer : Tokenizer) : list (string * Z) :=
  sorted_by_id (get_vocab tokenizer).

(** Lines 114-119: the text written to vocab.txt, one [f.write] per item. *)
Definition vocab_file (tokenizer : Tokenizer) : string :=
  fold_left (fun content item => content ++ (fst item ++ newline))
            (sorted_vocab tokenizer) "".

(** The lines of a text, split at line feeds (terminators removed; a last
    line need not be terminated). *)
Fixpoint read_lines (s : string) : list string :=
  match s with
  | EmptyString => []
  | String c s' =>
      if Ascii.eqb c LF then EmptyString :: read_lines s'
      else match read_lines s' with
           | [] => [String c EmptyString]
           | l :: ls => String c l :: ls
           end
  end.

Fixpoint has_LF (s : string) : bool :=
  match s with
  | EmptyString => false
  | String c s' => Ascii.eqb c LF || has_LF s'
  end.

(** Lines 127-139: the dict written to tokenizer_config.json. *)
Inductive json : Type :=
| JInt (z : Z)
| JBool (b : bool)
| JStr (s : string).

Definition tokenizer_config (tokenizer : Tokenizer) : list (string * json) :=
  [ ("vocab_size", JInt (vocab_size tokenizer));
    ("max_length", JInt 128);
    ("do_lower_case", JBool true);
    ("cls_token", JStr (cls_token tokenizer));
    ("sep_token", JStr (sep_token tokenizer));
    ("pad_token", JStr (pad_token tokenizer));
    ("unk_token", JStr (unk_token tokenizer));
    ("cls_token_id", JInt (cls_token_id tokenizer));
    ("sep_token_id", JInt (sep_token_id tokenizer));
    ("pad_token_id", JInt (pad_token_id tokenizer));
    ("unk_token_id", JInt (unk_token_id tokenizer)) ].

Fixpoint json_get (key : string) (d : list (string * json)) : option json :=
  match d with
  | [] => None
  | (k, v) :: d' => if String.eqb k key then Some v else json_get key d'
  end.

(** The number of lines of the written vocabulary file. *)
Definition vocab_file_lines (tokenizer : Tokenizer) : list string :=
  read_lines (vocab_file tokenizer).

(** The vocabulary size the exported configuration reports. *)
Definition reported_vocab_size (tokenizer : Tokenizer) : option json :=
  json_get "vocab_size" (tokenizer_config tokenizer).

Definition ascending_ids (l : list (string * Z)) : Prop :=
  StronglySorted (fun a b => (snd a <= snd b)%Z) l.

(** A small tokenizer whose dict is not in id order. *)
Definition small_tokenizer : Tokenizer :=
  {| get_vocab := [("world", 2%Z); ("[PAD]", 0%Z); ("hello", 1%Z)];
     vocab_size := 3;
     cls_token := "[CLS]"; sep_token := "[SEP]";
     pad_token := "[PAD]"; unk_token := "[UNK]";
     cls_token_id := 101; sep_token_id := 102;
     pad_token_id := 0; unk_token_id := 100 |}.

End VocabExport.

(** ** scripts/convert_minilm_to_onnx.py: the flow of control

    The script is a straight line of library calls with two [try] blocks:
    around the quantisation (lines 83-108) and around the test inference
    (lines 150-205).  A [world] fixes how each library call ends; the script
    is a command on the state made of the console output and the variable
    [final_model_path]. *)

Module OnnxScript.

Import String.
Local Open Scope string_scope.

(** Python exceptions: instances of [Exception], which [except Exception]
    catches, and the other [BaseException]s (KeyboardInterrupt, SystemExit),
    which it does not. *)
Inductive exn : Type :=
| Exception (msg : string)
| BaseException (msg : string).

(** [OUTPUT_DIR / "minilm_l6_v2.onnx"] and
    [OUTPUT_DIR / "minilm_l6_v2_quantized.onnx"]. *)
Inductive path : Type :=
| onnx_model_path
| quantized_model_path.

(** How each external call ends: [None] when it returns, [Some e] when it
    raises [e]. *)
Record world : Type := {
  load_tokenizer : option exn;       (* line 35 *)
  load_model : option exn;           (* lines 36-37 *)
  export_onnx : option exn;          (* lines 48-75 *)
  import_quantization : option exn;  (* line 84 *)
  quantize_dynamic : option exn;     (* lines 88-93 *)
  stat_quantized : option exn;       (* line 95 *)
  compression_ratio : option exn;    (* line 100: divides by original_size *)
  write_vocab : option exn;          (* lines 113-119 *)
  write_config : option exn;         (* lines 141-143 *)
  test_inference : option exn        (* lines 151-201 *)
}.

Record state : Type := {
  stdout : list string;
  final_model_path : option path
}.

Inductive outcome : Type :=
| Normal
| Raised (e : exn).

Definition command : Type := state -> state * outcome.

Definition seq_ (c1 c2 : command) : command :=
  fun s => match c1 s with
           | (s', Normal) => c2 s'
           | (s', Raised e) => (s', Raised e)
           end.

Notation "c1 ;; c2" := (seq_ c1 c2) (at level 61, right associativity).

Definition print (line : string) : command :=
  fun s => ({| stdout := stdout s ++ [line];
               final_model_path := final_model_path s |}, Normal).

Definition assign_final_model_path (p : path) : command :=
  fun s => ({| stdout := stdout s; final_model_path := Some p |}, Normal).

Definition call (r : option exn) : command :=
  fun s => match r with
           | None => (s, Normal)
           | Some e => (s, Raised e)
           end.

(** [try: body / except Exception as e: handler(str(e))]. *)
Definition try_except (body : command) (handler : string -> command)
  : command :=
  fun s => match body s with
           | (s', Raised (Exception msg)) => handler msg s'
           | r => r
           end.

Definition step1 (w : world) : command :=
  print "[1/5] Loading MiniLM-L6-v2 model and tokenizer..." ;;
  call (load_tokenizer w) ;;
  call (load_model w) ;;
  print "[OK] Model loaded: sentence-transformers/all-MiniLM-L6-v2".

Definition step2 (w : world) : command :=
  print "[2/5] Exporting model to ONNX format..." ;;
  call (export_onnx w) ;;
  print "[OK] Model exported to ONNX".

(** The body of the first [try] (lines 84-103). *)
Definition quantization_body (w : world) : command :=
  call (import_quantization w) ;;
  call (quantize_dynamic w) ;;
  call (stat_quantized w) ;;
  print "[OK] Model quantized" ;;
  call (compression_ratio w) ;;
  assign_final_model_path quantized_model_path.

Definition quantization_handler (msg : string) : command :=
  print ("[WARNING] Quantization failed: " ++ msg) ;;
  print "  Using non-quantized model" ;;
  assign_final_model_path onnx_model_path.

Definition step3 (w : world) : command :=
  print "[3/5] Quantizing model for mobile deployment..." ;;
  try_except (quantization_body w) quantization_handler.

Definition step4 (w : world) : command :=
  print "[4/5] Exporting tokenizer vocabulary..." ;;
  call (write_vocab w) ;;
  print "[OK] Vocabulary saved".

Definition step5 (w : world) : command :=
  print "[5/5] Exporting tokenizer configuration..." ;;
  call (write_config w) ;;
  print "[OK] Tokenizer config saved".

Definition inference_handler (msg : string) : command :=
  print ("[WARNING] Test inference failed: " ++ msg) ;;
  print "  Model exported but not tested. Verify on Android device.".

Definition step6 (w : world) : command :=
  print "[6/6] Testing ONNX inference..." ;;
  try_except (call (test_inference w) ;;
              print "[OK] Test inference successful")
             inference_handler.

Definition summary : command :=
  print "EXPORT COMPLETE" ;;
  print "Model ready for Android deployment!".

Definition script (w : world) : command :=
  step1 w ;; step2 w ;; step3 w ;; step4 w ;; step5 w ;; step6 w ;; summary.

Definition run (w : world) : state * outcome :=
  script w {| stdout := []; final_model_path := None |}.

(** How the quantisation step (the body of the first [try]) ends: the first
    of its calls that raises. *)
Definition first_raise (calls : list (option exn)) : option exn :=
  fold_right (fun r rest => match r with Some e => Some e | None => rest end)
             None calls.

Definition quantization_raises (w : world) : option exn :=
  first_raise [import_quantization w; quantize_dynamic w; stat_quantized w;
               compression_ratio w].

(** Failures before the first [try] (steps 1 and 2) and between the two
    [try] blocks (steps 4 and 5). *)
Definition setup_raises (w : world) : option exn :=
  first_raise [load_tokenizer w; load_model w; export_onnx w].

Definition file_export_raises (w : world) : option exn :=
  first_raise [write_vocab w; write_config w].

Definition caught (r : option exn) : bool :=
  match r with
  | Some (BaseException _) => false
  | _ => true
  end.

(** A world in which every call returns. *)
Definition all_fine : world :=
  {| load_tokenizer := None; load_model := None; export_onnx := None;
     import_quantization := None; quantize_dynamic := None;
     stat_quantized := None; compression_ratio := None;
     write_vocab := None; write_config := None; test_inference := None |}.

(** onnxruntime lacks the quantisation entry point. *)
Definition quantization_fails : world :=
  {| load_tokenizer := None; load_model := None; export_onnx := None;
     import_quantization := None;
     quantize_dynamic := Some (Exception "unexpected keyword optimize_model");
     stat_quantized := None; compression_ratio := None;
     write_vocab := None; write_config := None; test_inference := None |}.

(** The inference session cannot be created. *)
Definition inference_fails : world :=
  {| load_tokenizer := None; load_model := None; export_onnx := None;
     import_quantization := None; quantize_dynamic := None;
     stat_quantized := None; compression_ratio := None;
     write_vocab := None; write_config := None;
     test_inference := Some (Exception "No module named onnxruntime") |}.

End OnnxScript.

(** ** scripts/generate_embeddings_simple.py: placeholder embeddings

    Each pattern is hashed with Python's built-in [hash], the hash seeds
    NumPy's global generator, and 384 standard normal draws are normalised.

    [hash] on a [str] is CPython's keyed SipHash-1-3 (Python 3.11 and
    later) of the string's bytes; the 128-bit key is drawn when the
    interpreter starts (or derived from PYTHONHASHSEED), so it is an input
    of a run.  The patterns are ASCII, one byte per character. *)

Module Placeholder.

Import NpFloat Numpy.
Import String.
Local Open Scope Z_scope.

(** *** [hash(str)] *)

Definition u64 (x : Z) : Z := Z.land x (Z.ones 64).

Definition rotl (x b : Z) : Z :=
  u64 (Z.lor (Z.shiftl x b) (Z.shiftr x (64 - b))).

Definition sip_state : Type := (Z * Z * Z * Z)%type.

Definition half_round (a b c d s t : Z) : sip_state :=
  let a := u64 (a + b) in
  let c := u64 (c + d) in
  let b := Z.lxor (rotl b s) a in
  let d := Z.lxor (rotl d t) c in
  let a := rotl a 32 in
  (a, b, c, d).

Definition single_round (v : sip_state) : sip_state :=
  let '(v0, v1, v2, v3) := v in
  let '(v0, v1, v2, v3) := half_round v0 v1 v2 v3 13 16 in
  let '(v2, v1, v0, v3) := half_round v2 v1 v0 v3 17 21 in
  (v0, v1, v2, v3).

(** A little-endian word from its bytes. *)
Definition le_word (bytes : list Z) : Z :=
  fold_right (fun b acc => b + 256 * acc) 0 bytes.

Definition absorb (v : sip_state) (m : Z) : sip_state :=
  let '(v0, v1, v2, v3) := v in
  let '(v0, v1, v2, v3) := single_round (v0, v1, v2, Z.lxor v3 m) in
  (Z.lxor v0 m, v1, v2, v3).

(** The full 8-byte words, then the remaining bytes. *)
Fixpoint absorb_words (v : sip_state) (data : list Z)
  : sip_state * list Z :=
  match data with
  | b0 :: b1 :: b2 :: b3 :: b4 :: b5 :: b6 :: b7 :: rest =>
      absorb_words (absorb v (le_word [b0; b1; b2; b3; b4; b5; b6; b7])) rest
  | tail => (v, tail)
  end.

Definition siphash13 (k0 k1 : Z) (data : list Z) : Z :=
  let b := u64 (Z.shiftl (Z.of_nat (List.length data)) 56) in
  let v := (Z.lxor k0 0x736f6d6570736575, Z.lxor k1 0x646f72616e646f6d,
            Z.lxor k0 0x6c7967656e657261, Z.lxor k1 0x7465646279746573) in
  let '(v, tail) := absorb_words v data in
  let b := Z.lor b (le_word tail) in
  let '(v0, v1, v2, v3) := absorb v b in
  let v2 := Z.lxor v2 0xff in
  let '(v0, v1, v2, v3) :=
    single_round (single_round (single_round (v0, v1, v2, v3))) in
  Z.lxor (Z.lxor v0 v1) (Z.lxor v2 v3).

Fixpoint bytes_of (s : string) : list Z :=
  match s with
  | EmptyString => []
  | String c s' => Z.of_N (N_of_ascii c) :: bytes_of s'
  end.

(** The key of a run: the two 64-bit halves of the hash secret. *)
Definition hash_secret : Type := (Z * Z)%type.

(** [hash(s)]: a signed 64-bit integer, never -1; the empty string hashes to
    0. *)
Definition py_hash (secret : hash_secret) (s : string) : Z :=
  match bytes_of s with
  | [] => 0
  | data =>
      let x := siphash13 (fst secret) (snd secret) data in
      let x := if Z.leb (2 ^ 63) x then x - 2 ^ 64 else x in
      if Z.eqb x (-1) then -2 else x
  end.

(** Lines 69 and 83: the argument of [np.random.seed].  Python's [%] with a
    positive modulus is non-negative, so the seed is always accepted. *)
Definition seed_of (secret : hash_secret) (pattern : string) : Z :=
  py_hash secret pattern mod 2 ^ 32.

(** *** The embeddings *)

Definition EMBEDDING_DIM : nat := 384.

Local Open Scope string_scope.

Definition scam_patterns : list string :=
  [ "Congratulations! You've won a prize in a lottery you never entered";
    "You are the lucky winner of our grand prize draw";
    "Your bank account has been suspended due to suspicious activity";
    "We need to verify your credit card information right now";
    "This is the IRS calling about unpaid taxes and penalties";
    "You have a warrant for your arrest due to tax fraud";
    "Your computer has been infected with a dangerous virus";
    "This is Microsoft technical support calling about your Windows license";
    "Pay the fine using iTunes gift cards or Google Play cards";
    "Purchase prepaid cards and provide the codes to resolve this";
    "Guaranteed returns on this exclusive investment opportunity";
    "Double your money with our cryptocurrency trading system";
    "Grandma, it's me, I'm in trouble and need money urgently";
    "Your grandson has been arrested and needs bail money immediately";
    "This is an official government agency calling about your benefits";
    "Federal officer calling regarding a legal matter in your name" ].

Definition legitimate_patterns : list string :=
  [ "Hi, this is John from the office calling about tomorrow's meeting";
    "Following up on the project we discussed last week";
    "Hey, it's Sarah! Just wanted to catch up and see how you're doing";
    "Mom calling to check in and see if you're free for dinner";
    "This is your bank calling to verify a recent transaction on your account";
    "Appointment reminder for your doctor's visit tomorrow at 2 PM";
    "Your package delivery is scheduled for this afternoon";
    "Thank you for being a valued customer, here's an exclusive offer" ].

(** A rank-1 array. *)
Record array1 : Type := Array1 {
  size : nat;
  item1 : nat -> fval
}.

(** [np.linalg.norm(x)] on a rank-1 array: [sqrt(dot(x, x))]. *)
Definition linalg_norm (x : array1) : fval :=
  fsqrt (reduce_add (size x) (fun k => fmul (item1 x k) (item1 x k))).

(** Division of an array by a scalar. *)
Definition divide_scalar (x : array1) (d : fval) : array1 :=
  Array1 (size x) (fun k => fdiv (item1 x k) d).

(** [np.array(list_of_rows, dtype=np.float32)] for rows of length [c]. *)
Definition np_array (c : nat) (l : list array1) : array2 fval :=
  Array2 (List.length l) c (fun i k => item1 (nth i l (Array1 O (fun _ => NaN))) k).

Section Generator.

(** NumPy's legacy generator: [standard_normal s k] is draw number [k]
    after [np.random.seed(s)].  The draws are finite numbers. *)
Variable standard_normal : Z -> nat -> R.

(** Lines 69-70: seed, then [np.random.randn(EMBEDDING_DIM)]. *)
Definition random_vector (secret : hash_secret) (pattern : string) : array1 :=
  let seed := seed_of secret pattern in
  Array1 EMBEDDING_DIM (fun k => Fin (standard_normal seed k)).

(** Lines 69-72, the body of the loop. *)
Definition placeholder_embedding (secret : hash_secret) (pattern : string)
  : array1 :=
  let embedding := random_vector secret pattern in
  divide_scalar embedding (linalg_norm embedding).

(** Lines 66-75 and 81-88. *)
Definition embeddings_of (secret : hash_secret) (patterns : list string)
  : array2 fval :=
  np_array EMBEDDING_DIM (map (placeholder_embedding secret) patterns).

Definition scam_embeddings (secret : hash_secret) : array2 fval :=
  embeddings_of secret scam_patterns.

Definition legitimate_embeddings (secret : hash_secret) : array2 fval :=
  embeddings_of secret legitimate_patterns.

End Generator.

(** Two runs: hash randomisation disabled (PYTHONHASHSEED=0, the key is
    zero), and PYTHONHASHSEED=1. *)
Definition secret_seed0 : hash_secret := (0, 0)%Z.
Definition secret_seed1 : hash_secret :=
  (12598376723466036009, 16999324916296290386)%Z.

End Placeholder.
(** ** IEEE 754 binary32 arithmetic (NumPy's float32)

    The arrays of the mean pooling and of the placeholder embeddings are
    float32 arrays.  The operations are the correctly rounded binary32
    operations (round to nearest, ties to even, overflow to an infinity,
    gradual underflow) of the standard library's executable specification
    of IEEE 754 arithmetic, at precision 24 and maximal exponent 128. *)

Module Float32.

Local Open Scope Z_scope.

Definition float32 : Type := spec_float.

Definition prec : Z := 24.
Definition emax : Z := 128.

Definition add : float32 -> float32 -> float32 := SFadd prec emax.
Definition mul : float32 -> float32 -> float32 := SFmul prec emax.
Definition div : float32 -> float32 -> float32 := SFdiv prec emax.
Definition sqrt : float32 -> float32 := SFsqrt prec emax.

Definition zero : float32 := S754_zero false.
Definition inf : float32 := S754_infinity false.
Definition nan : float32 := S754_nan.

(** [np.maximum]: a NaN operand gives NaN. *)
Definition maximum (x y : float32) : float32 :=
  match SFcompare x y with
  | None => nan
  | Some Lt => y
  | Some _ => x
  end.

(** The float32 nearest to the number [m * 2^e]; [astype(np.float32)] of an
    integer is [of_Z]. *)
Definition round (m e : Z) : float32 := binary_normalize prec emax m e false.
Definition of_Z (z : Z) : float32 := round z 0.

Definition is_finite (x : float32) : bool :=
  match x with
  | S754_zero _ | S754_finite _ _ _ => true
  | _ => false
  end.

Local Open Scope R_scope.

(** The real number a finite float32 stands for (0 for the others). *)
Definition bpow (e : Z) : R :=
  match e with
  | Z0 => 1
  | Zpos p => IZR (Z.pow_pos 2 p)
  | Zneg p => / IZR (Z.pow_pos 2 p)
  end.

Definition value (x : float32) : R :=
  match x with
  | S754_finite s m e => IZR (if s then Zneg m else Zpos m) * bpow e
  | _ => 0
  end.

End Float32.

(** ** The embeddings in float32

    convert_minilm_to_onnx.py, lines 180-195, for one sequence of the
    batch (a mask of the sequence's length), and
    generate_embeddings_simple.py, lines 70-72 and 84-85. *)

Module Float32Embedding.

Import Float32.
Local Open Scope R_scope.

(** NumPy's two reductions.  In which order a reduction adds the items of
    a long row is NumPy's own affair (pairwise, in blocks, or a BLAS
    kernel), so it is left open. *)
Record reductions : Type := {
  add_reduce : list float32 -> float32;
  dot : list float32 -> list float32 -> float32
}.

(** Rows of fewer than eight items are added from left to right. *)
Definition add_left_to_right (l : list float32) : float32 :=
  match l with
  | [] => zero
  | x :: l' => fold_left add l' x
  end.

Definition short_rows : reductions :=
  {| add_reduce := add_left_to_right;
     dot := fun x y =>
              add_left_to_right
                (map (fun p => mul (fst p) (snd p)) (combine x y)) |}.

(** Lines 180-185: the mask of the sequence, one float32 per token. *)
Definition input_mask_expanded (attention_mask : list Z) : list float32 :=
  map of_Z attention_mask.

(** Line 187, entry [k]: the sum over the tokens of hidden state times
    mask. *)
Definition sum_embeddings (np : reductions)
           (last_hidden_state : list (list float32))
           (attention_mask : list Z) (k : nat) : float32 :=
  add_reduce np
    (map (fun tm => mul (nth k (fst tm) nan) (snd tm))
         (combine last_hidden_state (input_mask_expanded attention_mask))).

(** Line 188; [a_min] is the float32 nearest to 1e-9. *)
Definition a_min : float32 := S754_finite false 9007199 (-53).

Definition sum_mask (np : reductions) (attention_mask : list Z) : float32 :=
  maximum (add_reduce np (input_mask_expanded attention_mask)) a_min.

(** Line 191: the mean-pooled row, of [dim] entries. *)
Definition mean_pooling (np : reductions)
           (last_hidden_state : list (list float32))
           (attention_mask : list Z) (dim : nat) : list float32 :=
  map (fun k => div (sum_embeddings np last_hidden_state attention_mask k)
                    (sum_mask np attention_mask))
      (seq 0 dim).

(** Line 194, [np.linalg.norm(embedding, axis=1, keepdims=True)] for one
    row: [sqrt(add.reduce((x.conj() * x).real))]. *)
Definition linalg_norm_axis1 (np : reductions) (row : list float32)
  : float32 :=
  sqrt (add_reduce np (map (fun v => mul v v) row)).

(** Line 195. *)
Definition normalize (np : reductions) (row : list float32)
  : list float32 :=
  map (fun v => div v (linalg_norm_axis1 np row)) row.

Definition sentence_embedding (np : reductions)
           (last_hidden_state : list (list float32))
           (attention_mask : list Z) (dim : nat) : list float32 :=
  normalize np (mean_pooling np last_hidden_state attention_mask dim).

(** generate_embeddings_simple.py, lines 72 and 85: [np.linalg.norm(x)] of
    a float32 vector is [sqrt(x.dot(x))]; [draws] is
    [np.random.randn(EMBEDDING_DIM).astype(np.float32)]. *)
Definition linalg_norm (np : reductions) (x : list float32) : float32 :=
  sqrt (dot np x x).

Definition placeholder_embedding (np : reductions) (draws : list float32)
  : list float32 :=
  map (fun v => div v (linalg_norm np draws)) draws.

(** The exact sum of the squares of the values of a row, and the exact L2
    norm. *)
Definition sum_of_squares (row : list float32) : R :=
  fold_right (fun v acc => value v * value v + acc) 0 row.

Definition l2_norm (row : list float32) : R :=
  R_sqrt.sqrt (sum_of_squares row).

(** The computed float32 [x] is finite and within relative error [u] of
    the exact result [r]. *)
Definition accurate (u : R) (x : float32) (r : R) : Prop :=
  is_finite x = true /\ Rabs (value x - r) <= u * Rabs r.

(** The normalisation of [row], whose sum of squares was computed as [s],
    stays in range: the sum of squares, its square root and every quotient
    are accurate, to [g], [u] and [u].  Correctly rounded operations on
    normal numbers have [u = 2^-24]; a sum of [n] squares has [g] of about
    [n * 2^-24]. *)
Definition in_range (u g : R) (row : list float32) (s : float32) : Prop :=
  accurate g s (sum_of_squares row) /\
  accurate u (sqrt s) (R_sqrt.sqrt (value s)) /\
  Forall (fun v => accurate u (div v (sqrt s)) (value v / value (sqrt s)))
         row.

(** Concrete float32 numbers. *)
Definition one : float32 := of_Z 1.
Definition three : float32 := of_Z 3.
Definition four : float32 := of_Z 4.
Definition two_pow (e : Z) : float32 := round 1 e.

End Float32Embedding.

(** ** Concrete inputs *)

Module Inputs.

Import NpFloat Numpy.
Local Open Scope R_scope.

(** Two sequences of two token vectors of dimension two. *)
Definition hidden22 : array3 fval :=
  of_blocks NaN 2 2 [ [ [Fin 3; Fin 4]; [Fin 1; Fin 1] ];
                      [ [Fin 1; Fin 2]; [Fin 5; Fin 6] ] ].

(** The first sequence keeps its first token, the second is fully masked. *)
Definition mask_first_only : array2 Z :=
  of_rows 0%Z 2 [ [1; 0]; [0; 0] ]%Z.

Definition mask_all_ones : array2 Z :=
  of_rows 0%Z 2 [ [1; 1]; [1; 1] ]%Z.

(** [hidden22] with other vectors at the masked positions of
    [mask_first_only]. *)
Definition hidden22_other_padding : array3 fval :=
  of_blocks NaN 2 2 [ [ [Fin 3; Fin 4]; [Fin 7; Fin (-2)] ];
                      [ [Fin 0; Fin 9]; [Fin 8; Fin 8] ] ].

(** A mask of one row, to be broadcast over the batch. *)
Definition mask_one_row : array2 Z := of_rows 0%Z 2 [ [1; 1] ]%Z.

(** A mask with three positions for sequences of two. *)
Definition mask_too_long : array2 Z :=
  of_rows 0%Z 3 [ [1; 1; 1]; [1; 1; 1] ]%Z.

(** A query and two reference sets of dimension two. *)
Definition query2 : array2 R := of_rows 0 2 [ [1; 0] ].
Definition scam2 : array2 R := of_rows 0 2 [ [1; 0]; [0; 1] ].
Definition legit2 : array2 R := of_rows 0 2 [ [0; 1]; [1; 1]; [1; 0] ].

Definition zero_query2 : array2 R := of_rows 0 2 [ [0; 0] ].

End Inputs.

(** ** Vocabulary of the further properties of the mean pooling *)

Module PoolingProps.

Import NpFloat Numpy OnnxPooling.
Local Open Scope R_scope.

(** The hidden states of batch row [i] are finite numbers. *)
Definition finite_row (h : array3 fval) (i : nat) : Prop :=
  forall j k, (j < dim1 h)%nat -> (k < dim2 h)%nat ->
              is_finite (item3 h i j k) = true.

(** The shapes [np.broadcast_to] accepts on line 181: each axis of the mask
    has the length of the hidden states' axis, or length 1. *)
Definition broadcastable (h : array3 fval) (m : array2 Z) : bool :=
  (Nat.eqb (rows m) (dim0 h) || Nat.eqb (rows m) 1)
  && (Nat.eqb (cols m) (dim1 h) || Nat.eqb (cols m) 1).

(** Row [i] of the mask is binary. *)
Definition binary_row (m : array2 Z) (i n : nat) : Prop :=
  forall j, (j < n)%nat -> item2 m i j = 0%Z \/ item2 m i j = 1%Z.

(** The number of the first [n] positions of row [i] whose mask is 1. *)
Definition unmasked (m : array2 Z) (i n : nat) : nat :=
  length (filter (fun j => Z.eqb (item2 m i j) 1) (seq 0 n)).

(** The sum of the token vectors of row [i] at the positions of mask 1. *)
Definition unmasked_sum (h : array3 fval) (m : array2 Z) (i k : nat) : R :=
  Rsum (dim1 h)
       (fun j => if Z.eqb (item2 m i j) 1 then to_R (item3 h i j k) else 0).

(** A one-row mask written out for a batch of [b] sequences. *)
Definition repeat_row (b : nat) (m : array2 Z) : array2 Z :=
  Array2 b (cols m) (fun _ j => item2 m 0 j).

(** The vector of token [j] of batch row [i], and its L2 norm. *)
Definition token_norm (h : array3 fval) (i j : nat) : fval :=
  fsqrt (reduce_add (dim2 h)
                    (fun k => fmul (item3 h i j k) (item3 h i j k))).

End PoolingProps.

(** ** Vocabulary of the further properties of the classification *)

Module ClassifierProps.

Import NpFloat Numpy Classifier.
Local Open Scope R_scope.

(** The shapes scikit-learn accepts for the three arrays. *)
Definition well_shaped (query scam legit : array2 R) : bool :=
  check_array query && check_array scam && check_array legit
  && Nat.eqb (cols query) (cols scam) && Nat.eqb (cols query) (cols legit).

(** All entries of the array are zero. *)
Definition all_zero (X : array2 R) : Prop :=
  forall i k, (i < rows X)%nat -> (k < cols X)%nat -> item2 X i k = 0.

(** [idx] selects rows of an array with [n] rows. *)
Definition valid_selection (idx : list nat) (n : nat) : Prop :=
  forall j, In j idx -> (j < n)%nat.

End ClassifierProps.

(** ** Vocabulary of the further properties of the vocabulary export *)

Module VocabProps.

Import String VocabExport.

(** The ids of the vocabulary are exactly 0, 1, ..., n-1. *)
Definition consecutive_ids (vocab : list (string * Z)) : Prop :=
  Permutation (map snd vocab)
              (map Z.of_nat (seq 0 (List.length vocab))).

(** The number of line feeds in a string, and in all tokens of a
    vocabulary. *)
Fixpoint count_LF (s : string) : nat :=
  match s with
  | EmptyString => O
  | String c s' => (if Ascii.eqb c LF then 1 else 0) + count_LF s'
  end.

Definition line_feeds (vocab : list (string * Z)) : nat :=
  list_sum (map (fun item => count_LF (fst item)) vocab).

(** A vocabulary whose second token holds a line feed. *)
Definition tokenizer_with_line_feed : Tokenizer :=
  {| get_vocab := [("[PAD]", 0%Z); (String "a" (String LF "b"), 1%Z)];
     vocab_size := 2;
     cls_token := "[CLS]"; sep_token := "[SEP]";
     pad_token := "[PAD]"; unk_token := "[UNK]";
     cls_token_id := 101; sep_token_id := 102;
     pad_token_id := 0; unk_token_id := 100 |}%string.

End VocabProps.

(** ** scripts/convert_minilm_to_onnx.py, step 6 as a whole: the body of
    the second [try] (lines 151-201)

    The session (import, [InferenceSession], tokenizer, [session.run])
    either raises or delivers the hidden states and the attention mask; the
    pooling then raises ValueError when the shapes do not broadcast; the
    prints that follow cannot raise. *)

Module OnnxInference.

Import NpFloat Numpy OnnxPooling OnnxScript.
Import String.
Local Open Scope string_scope.

Definition session_result : Type :=
  (exn + (array3 fval * array2 Z))%type.

(** The text of NumPy's ValueError (its wording is not modelled). *)
Definition broadcast_error : string :=
  "operands could not be broadcast together".

Definition inference_body (r : session_result) : option exn :=
  match r with
  | inl e => Some e
  | inr (last_hidden_state, attention_mask) =>
      match sentence_embedding last_hidden_state attention_mask with
      | Some _ => None
      | None => Some (Exception broadcast_error)
      end
  end.

(** The world [w] with the test inference decided by the session. *)
Definition with_inference (w : world) (r : session_result) : world :=
  {| load_tokenizer := load_tokenizer w;
     load_model := load_model w;
     export_onnx := export_onnx w;
     import_quantization := import_quantization w;
     quantize_dynamic := quantize_dynamic w;
     stat_quantized := stat_quantized w;
     compression_ratio := compression_ratio w;
     write_vocab := write_vocab w;
     write_config := write_config w;
     test_inference := inference_body r |}.

End OnnxInference.

(** ** scripts/generate_embeddings_simple.py with the generator's state

    NumPy's legacy generator is one global state: [np.random.seed] replaces
    it, every draw of [np.random.randn] advances it.  The two loops of the
    script (lines 66-75 and 81-88) run on that state one after the other. *)

Module PlaceholderLoop.

Import NpFloat Numpy Placeholder.
Import String.

Section Generator.

Variable rng_state : Type.

(** [np.random.seed(s)]: the state the seed determines. *)
Variable seed_state : Z -> rng_state.

(** One standard normal draw, and the state after it. *)
Variable next_normal : rng_state -> R * rng_state.

(** [np.random.randn(n)]: [n] draws in a row. *)
Fixpoint randn (n : nat) (st : rng_state) : list R * rng_state :=
  match n with
  | O => ([], st)
  | S n' =>
      let '(x, st1) := next_normal st in
      let '(xs, st2) := randn n' st1 in
      (x :: xs, st2)
  end.

(** The state after [k] draws, and draw number [k]. *)
Fixpoint advance (k : nat) (st : rng_state) : rng_state :=
  match k with
  | O => st
  | S k' => advance k' (snd (next_normal st))
  end.

Definition draw (st : rng_state) (k : nat) : R :=
  fst (next_normal (advance k st)).

(** The stream of draws a seed determines. *)
Definition stream (seed : Z) (k : nat) : R := draw (seed_state seed) k.

(** Lines 69-70: seed with the pattern's hash, then draw. *)
Definition seeded_draws (secret : hash_secret) (pattern : string)
  : list R * rng_state :=
  randn EMBEDDING_DIM (seed_state (seed_of secret pattern)).

(** Lines 70-72: the drawn vector as float32 array, divided by its norm. *)
Definition normalized (draws : list R) : array1 :=
  let embedding := Array1 EMBEDDING_DIM (fun k => Fin (nth k draws 0%R)) in
  divide_scalar embedding (linalg_norm embedding).

(** Lines 69-73 (and 83-86): one pass of the loop body, from the list built
    so far and the global state, which the seeding replaces. *)
Definition loop_body (secret : hash_secret)
           (acc : list array1 * rng_state) (pattern : string)
  : list array1 * rng_state :=
  let '(embeddings, _) := acc in
  let '(draws, st') := seeded_draws secret pattern in
  (embeddings ++ [normalized draws], st').

(** One loop: the array and the state it leaves behind. *)
Definition generate (secret : hash_secret) (patterns : list string)
           (st : rng_state) : array2 fval * rng_state :=
  let '(embeddings, st') := fold_left (loop_body secret) patterns ([], st) in
  (np_array EMBEDDING_DIM embeddings, st').

(** Both loops: the two arrays saved on lines 95-96. *)
Definition generate_both (secret : hash_secret) (st : rng_state)
  : array2 fval * array2 fval :=
  let '(scam, st1) := generate secret scam_patterns st in
  let '(legit, _) := generate secret legitimate_patterns st1 in
  (scam, legit).

End Generator.

End PlaceholderLoop.

(** ** scripts/convert_minilm_to_tflite.py: the flow of control

    The script has no [try]: the first call that raises ends the run.  The
    state is the console output and the arrays saved so far.  The lines
    that print measured values (the similarities, the shape of the test
    embedding) and the rules of [=] are left out of the console; the encoder
    and the file system are a [world] as for the ONNX script. *)

Module TfliteScript.

Import NpFloat Numpy Classifier.
Import String.
Local Open Scope string_scope.

Definition exn : Type := OnnxScript.exn.

Inductive file : Type :=
| scam_embeddings_npy
| legitimate_embeddings_npy.

Record world : Type := {
  load_model : option exn;            (* line 25 *)
  makedirs : option exn;              (* line 32 *)
  encode_scam : exn + array2 R;       (* line 67 *)
  encode_legitimate : exn + array2 R; (* line 68 *)
  save_scam : option exn;             (* line 70 *)
  save_legitimate : option exn;       (* line 71 *)
  encode_test : exn + array2 R;       (* line 79 *)
  import_sklearn : option exn         (* line 83 *)
}.

Record state : Type := {
  stdout : list string;
  saved : list (file * array2 R)
}.

(** A command returns a value or raises. *)
Definition M (A : Type) : Type := state -> state * (exn + A).

Definition ret {A} (a : A) : M A := fun s => (s, inr a).

Definition bind {A B} (c : M A) (k : A -> M B) : M B :=
  fun s => match c s with
           | (s', inr a) => k a s'
           | (s', inl e) => (s', inl e)
           end.

Notation "x <~ c ;;; k" := (bind c (fun x => k))
  (at level 61, c at next level, right associativity).
Notation "c ;;; k" := (bind c (fun _ => k))
  (at level 61, right associativity).

Definition print (line : string) : M unit :=
  fun s => ({| stdout := stdout s ++ [line]; saved := saved s |}, inr tt).

Definition call (r : option exn) : M unit :=
  fun s => match r with
           | None => (s, inr tt)
           | Some e => (s, inl e)
           end.

Definition result_of {A} (r : exn + A) : M A := fun s => (s, r).

(** [np.save(path, array)]. *)
Definition np_save (f : file) (a : array2 R) (r : option exn) : M unit :=
  fun s => match r with
           | None => ({| stdout := stdout s; saved := saved s ++ [(f, a)] |},
                      inr tt)
           | Some e => (s, inl e)
           end.

(** The text of scikit-learn's ValueError (its wording is not modelled). *)
Definition value_error : string := "ValueError".

Definition label_text (l : label) : string :=
  match l with
  | SCAM => "SCAM"
  | LEGITIMATE => "LEGITIMATE"
  end.

(** Lines 84-88. *)
Definition similarity_test (test_embedding scam_embeddings
                            legitimate_embeddings : array2 R) : M unit :=
  match classify test_embedding scam_embeddings legitimate_embeddings with
  | None => fun s => (s, inl (OnnxScript.Exception value_error))
  | Some r => print ("  Classification: " ++ label_text (verdict r))
  end.

Definition script (w : world) : M unit :=
  print "MiniLM-L6-v2 Embedding Generator" ;;;
  print "[1/4] Loading MiniLM-L6-v2 model..." ;;;
  call (load_model w) ;;;
  print "[OK] Model loaded: sentence-transformers/all-MiniLM-L6-v2" ;;;
  print "  Embedding dimension: 384" ;;;
  call (makedirs w) ;;;
  print "[2/4] Generating scam pattern embeddings..." ;;;
  scam_embeddings <~ result_of (encode_scam w) ;;;
  legitimate_embeddings <~ result_of (encode_legitimate w) ;;;
  np_save scam_embeddings_npy scam_embeddings (save_scam w) ;;;
  np_save legitimate_embeddings_npy legitimate_embeddings
          (save_legitimate w) ;;;
  print "[OK] Scam patterns: 16 embeddings saved" ;;;
  print "[OK] Legitimate patterns: 8 embeddings saved" ;;;
  print "[3/4] Testing encoding..." ;;;
  test_embedding <~ result_of (encode_test w) ;;;
  call (import_sklearn w) ;;;
  similarity_test test_embedding scam_embeddings legitimate_embeddings ;;;
  print "[4/4] Summary" ;;;
  print "[OK] Scam embeddings: ../app/src/main/assets/models/scam_embeddings.npy" ;;;
  print "[OK] Legitimate embeddings: ../app/src/main/assets/models/legitimate_embeddings.npy" ;;;
  print "  Embedding dimension: 384" ;;;
  print "  Scam patterns: 16" ;;;
  print "  Legitimate patterns: 8" ;;;
  print "Embeddings ready for Android app!".

Definition run (w : world) : state * (exn + unit) :=
  script w {| stdout := []; saved := [] |}.

(** The encodings are delivered and the two files are written. *)
Definition embeddings_saved (w : world) (scam legit : array2 R) : Prop :=
  load_model w = None /\ makedirs w = None /\
  encode_scam w = inr scam /\ encode_legitimate w = inr legit /\
  save_scam w = None /\ save_legitimate w = None.

(** A world of the three arrays in which every call returns. *)
Definition world_of (scam legit test : array2 R) : world :=
  {| load_model := None; makedirs := None;
     encode_scam := inr scam; encode_legitimate := inr legit;
     save_scam := None; save_legitimate := None;
     encode_test := inr test; import_sklearn := None |}.

(** The same with scikit-learn missing. *)
Definition world_without_sklearn (scam legit test : array2 R) : world :=
  {| load_model := None; makedirs := None;
     encode_scam := inr scam; encode_legitimate := inr legit;
     save_scam := None; save_legitimate := None;
     encode_test := inr test;
     import_sklearn :=
       Some (OnnxScript.Exception "No module named sklearn") |}.

End TfliteScript.

(* ================================================================== *)
(** * Part II: properties *)
(* ================================================================== *)

(** ** Arithmetic on floating-point values *)

Section NpFloatFacts.

Import NpFloat.
Local Open Scope R_scope.

Lemma sgn_pos (r : R) : 0 < r -> sgn r = Gt.
Proof.
  intros H. unfold sgn.
  destruct (total_order_T r 0) as [[Hlt | Heq] | Hgt]; try reflexivity; lra.
Qed.


Lemma sgn_zero : sgn 0 = Eq.
Proof.
  unfold sgn.
  destruct (total_order_T 0 0) as [[Hlt | Heq] | Hgt]; try reflexivity; lra.
Qed.

Lemma sgn_Eq (r : R) : sgn r = Eq -> r = 0.
Proof.
  unfold sgn.
  destruct (total_order_T r 0) as [[Hlt | Heq] | Hgt]; congruence.
Qed.

Lemma sgn_Lt (r : R) : sgn r = Lt -> r < 0.
Proof.
  unfold sgn.
  destruct (total_order_T r 0) as [[Hlt | Heq] | Hgt]; congruence.
Qed.

Lemma sgn_Gt (r : R) : sgn r = Gt -> 0 < r.
Proof.
  unfold sgn.
  destruct (total_order_T r 0) as [[Hlt | Heq] | Hgt]; congruence.
Qed.

Lemma fdiv_fin (a b : R) : b <> 0 -> fdiv (Fin a) (Fin b) = Fin (a / b).
Proof.
  intros Hb. simpl. destruct (sgn b) eqn:E; try reflexivity.
  apply sgn_Eq in E. contradiction.
Qed.

Lemma fdiv_zero_zero : fdiv (Fin 0) (Fin 0) = NaN.
Proof. simpl. rewrite sgn_zero. reflexivity. Qed.

Lemma fsqrt_fin (a : R) : 0 <= a -> fsqrt (Fin a) = Fin (sqrt a).
Proof.
  intros Ha. simpl. destruct (sgn a) eqn:E; try reflexivity.
  apply sgn_Lt in E. lra.
Qed.

Lemma fsqrt_fin_eq (x y : R) : 0 <= y -> y * y = x -> fsqrt (Fin x) = Fin y.
Proof.
  intros Hy Hx. rewrite fsqrt_fin by nra. f_equal.
  apply sqrt_lem_1; [nra | exact Hy | exact Hx].
Qed.

Lemma fmul_one_r (x : fval) : fmul x (Fin 1) = x.
Proof.
  destruct x; simpl; unfold inf_times; rewrite ?sgn_pos by lra;
    try reflexivity.
  f_equal. ring.
Qed.

Lemma reduce_add_ext (n : nat) (f g : nat -> fval) :
  (forall j, (j < n)%nat -> f j = g j) -> reduce_add n f = reduce_add n g.
Proof.
  induction n as [| n IH]; intros H; simpl.
  - reflexivity.
  - rewrite IH by (intros j Hj; apply H; lia).
    rewrite (H n) by lia. reflexivity.
Qed.

(** A sum of finite values is the finite real sum. *)
Lemma reduce_add_fin (n : nat) (f : nat -> R) :
  reduce_add n (fun j => Fin (f j)) = Fin (Rsum n f).
Proof.
  induction n as [| n IH]; simpl; [reflexivity |].
  rewrite IH. reflexivity.
Qed.


Lemma Rsum_ext_R (n : nat) (f g : nat -> R) :
  (forall j, (j < n)%nat -> f j = g j) -> Rsum n f = Rsum n g.
Proof.
  induction n as [| n IH]; intros H; simpl; [reflexivity |].
  rewrite IH by (intros j Hj; apply H; lia).
  rewrite (H n) by lia. reflexivity.
Qed.

Lemma Rsum_zero (n : nat) (f : nat -> R) :
  (forall j, (j < n)%nat -> f j = 0) -> Rsum n f = 0.
Proof.
  induction n as [| n IH]; intros H; simpl; [reflexivity |].
  rewrite IH by (intros j Hj; apply H; lia).
  rewrite (H n) by lia. ring.
Qed.

Lemma Rsum_const (n : nat) (c : R) : Rsum n (fun _ => c) = INR n * c.
Proof.
  induction n as [| n IH].
  - simpl. ring.
  - rewrite S_INR. simpl. rewrite IH. ring.
Qed.

Lemma Rsum_scal (n : nat) (c : R) (f : nat -> R) :
  Rsum n (fun j => c * f j) = c * Rsum n f.
Proof.
  induction n as [| n IH]; simpl; [ring |].
  rewrite IH. ring.
Qed.

Lemma Rsum_nonneg (n : nat) (f : nat -> R) :
  (forall j, (j < n)%nat -> 0 <= f j) -> 0 <= Rsum n f.
Proof.
  induction n as [| n IH]; intros H; simpl; [lra |].
  assert (0 <= Rsum n f) by (apply IH; intros; apply H; lia).
  assert (0 <= f n) by (apply H; lia). lra.
Qed.

Lemma is_finite_to_R (x : fval) : is_finite x = true -> x = Fin (to_R x).
Proof. destruct x; simpl; congruence. Qed.

Lemma fmaximum_fin (a b : R) : fmaximum (Fin a) (Fin b) = Fin (Rmax a b).
Proof. reflexivity. Qed.

Lemma reduce_add_nan (n : nat) (f : nat -> fval) :
  (0 < n)%nat -> (forall k, (k < n)%nat -> f k = NaN) ->
  reduce_add n f = NaN.
Proof.
  destruct n as [| n]; [lia |]. intros _ H. simpl.
  rewrite (H n) by lia. destruct (reduce_add n f); reflexivity.
Qed.

End NpFloatFacts.

(** ** Broadcasting *)

Section NumpyFacts.

Import NpFloat Numpy.

Lemma bdim_same (d : nat) : bdim d d = Some d.
Proof. unfold bdim. rewrite Nat.eqb_refl. reflexivity. Qed.

Lemma bdim_one_r (d : nat) : bdim d 1 = Some d.
Proof.
  unfold bdim. destruct (Nat.eqb d 1) eqn:E.
  - apply Nat.eqb_eq in E. subst. reflexivity.
  - reflexivity.
Qed.

Lemma bidx_lt (d i : nat) : i < d -> bidx d i = i.
Proof.
  intros H. unfold bidx. destruct (Nat.eqb d 1) eqn:E; [| reflexivity].
  apply Nat.eqb_eq in E. lia.
Qed.

End NumpyFacts.

(** ** Mean pooling and normalisation (convert_minilm_to_onnx.py) *)

Section PoolingFacts.

Import NpFloat Numpy OnnxPooling.
Local Open Scope R_scope.

(** The expanded mask has the hidden-state shape and repeats the mask value
    along the hidden axis. *)
Lemma input_mask_expanded_spec (h : array3 fval) (m : array2 Z) :
  matching h m ->
  exists e, input_mask_expanded h m = Some e /\
            dim0 e = dim0 h /\ dim1 e = dim1 h /\ dim2 e = dim2 h /\
            forall i j k, (i < dim0 h)%nat -> (j < dim1 h)%nat ->
                          item3 e i j k = spec_mask m i j.
Proof.
  destruct h as [d0 d1 d2 g], m as [r c f]. unfold matching. simpl.
  intros [-> ->]. unfold input_mask_expanded, broadcast_to, shape3. simpl.
  rewrite !Nat.eqb_refl. simpl. rewrite orb_true_r. simpl.
  eexists. split; [reflexivity |]. simpl. repeat split.
  intros i j k Hi Hj. unfold spec_mask. simpl.
  rewrite (bidx_lt Hi), (bidx_lt Hj). reflexivity.
Qed.

Lemma mean_pooling_spec (h : array3 fval) (m : array2 Z) :
  matching h m ->
  exists e, mean_pooling h m = Some e /\
            rows e = dim0 h /\ cols e = dim2 h /\
            forall i k, (i < dim0 h)%nat -> (k < dim2 h)%nat ->
                        item2 e i k = spec_mean h m i k.
Proof.
  intros Hm. unfold mean_pooling.
  destruct (input_mask_expanded_spec Hm) as (e & -> & H0 & H1 & H2 & He).
  destruct h as [d0 d1 d2 g], e as [e0 e1 e2 ge]. simpl in *. subst.
  unfold sum_embeddings, multiply3, binop3. simpl. rewrite !bdim_same.
  unfold divide2, binop2, sum_mask, clip_min, sum_axis1. simpl.
  rewrite !bdim_same.
  eexists. split; [reflexivity |]. simpl. repeat split.
  intros i k Hi Hk. rewrite !(bidx_lt Hi), !(bidx_lt Hk).
  unfold spec_mean, spec_masked_sum, spec_mask_sum. simpl.
  f_equal.
  - apply reduce_add_ext. intros j Hj.
    rewrite (bidx_lt Hj). rewrite He by assumption. reflexivity.
  - f_equal. apply reduce_add_ext. intros j Hj. apply He; assumption.
Qed.

Lemma normalize_spec (e : array2 fval) :
  exists out, normalize e = Some out /\
              rows out = rows e /\ cols out = cols e /\
              forall i k, (i < rows e)%nat -> (k < cols e)%nat ->
                          item2 out i k = fdiv (item2 e i k) (row_norm e i).
Proof.
  destruct e as [r c g].
  unfold normalize, norm, divide2, binop2, linalg_norm_axis1. simpl.
  rewrite bdim_same, bdim_one_r.
  eexists. split; [reflexivity |]. simpl. repeat split.
  intros i k Hi Hk. rewrite !(bidx_lt Hi), !(bidx_lt Hk). reflexivity.
Qed.

Lemma row_norm_ext (a : array2 fval) (n : nat) (f : nat -> fval) (i : nat) :
  cols a = n ->
  (forall k, (k < n)%nat -> item2 a i k = f k) ->
  row_norm a i = fsqrt (reduce_add n (fun k => fmul (f k) (f k))).
Proof.
  intros <- H. unfold row_norm. f_equal. apply reduce_add_ext.
  intros k Hk. rewrite H by assumption. reflexivity.
Qed.

(** C1. For every hidden-state tensor and every attention mask with the same
    batch and sequence dimensions, the sentence-embedding computation
    succeeds, returns an array of shape [batch, hidden_dim], and each of its
    rows is the vector the specification describes: mask broadcast along the
    hidden axis, masked sum over the sequence axis, division by the mask sum
    clamped below at 1e-9, division by the L2 norm. *)
Theorem C1_sentence_embedding_is_masked_mean_normalized
        (h : array3 fval) (m : array2 Z) :
  matching h m ->
  exists out,
    sentence_embedding h m = Some out /\
    rows out = dim0 h /\ cols out = dim2 h /\
    forall i k, (i < dim0 h)%nat -> (k < dim2 h)%nat ->
                item2 out i k = spec_sentence_embedding h m i k.
Proof.
  intros Hm. unfold sentence_embedding.
  destruct (mean_pooling_spec Hm) as (e & -> & Hr & Hc & He).
  destruct (normalize_spec e) as (out & -> & Hor & Hoc & Ho).
  exists out. split; [reflexivity |].
  split; [congruence |]. split; [congruence |].
  intros i k Hi Hk.
  rewrite Ho by (rewrite ?Hr, ?Hc; assumption).
  unfold spec_sentence_embedding, spec_l2.
  rewrite He by assumption. f_equal.
  apply row_norm_ext; [exact Hc |].
  intros k' Hk'. apply He; assumption.
Qed.

(** The clamped mask sum is a finite number, at least 1e-9. *)
Lemma sum_mask_value (h : array3 fval) (m : array2 Z) (e : array3 fval) :
  input_mask_expanded h m = Some e ->
  forall i k, exists d, item2 (sum_mask e) i k = Fin d /\ 1e-9 <= d.
Proof.
  unfold input_mask_expanded.
  destruct (broadcast_to (expand_dims m) (shape3 h)) as [b |];
    [| discriminate].
  intros H. inversion H. subst e. clear H. intros i k.
  unfold sum_mask, clip_min, sum_axis1, astype_float32. simpl.
  rewrite reduce_add_fin, fmaximum_fin.
  eexists. split; [reflexivity |]. apply Rmax_r.
Qed.

(** C5. For every attention mask (also one that is entirely zero in some
    batch row), every denominator of the mean-pooling division is a finite
    number that is at least 1e-9, hence strictly positive, so the division
    of a finite sum by it is an ordinary quotient and never a division by
    zero. *)
Theorem C5_pooling_denominator_at_least_epsilon
        (h : array3 fval) (m : array2 Z) (e : array3 fval) :
  input_mask_expanded h m = Some e ->
  forall i k,
  exists d, item2 (sum_mask e) i k = Fin d /\
            1e-9 <= d /\ 0 < d /\
            forall x, fdiv (Fin x) (item2 (sum_mask e) i k) = Fin (x / d).
Proof.
  intros He i k. destruct (@sum_mask_value h m e He i k) as (d & Hd & Hle).
  exists d. split; [exact Hd |]. split; [exact Hle |].
  split; [lra |]. intros x. rewrite Hd. apply fdiv_fin. lra.
Qed.

(** C6. The normalisation has no zero-norm guard.  For a batch row whose
    attention mask is entirely zero (and whose hidden states are finite
    numbers) the mean-pooled row is the zero vector, its norm is zero, the
    normalisation divides zero by zero, every entry of the output row is
    NaN, and the output row is not a unit vector. *)
Theorem C6_all_masked_row_is_not_normalized
        (h : array3 fval) (m : array2 Z) (i : nat) :
  matching h m ->
  (i < dim0 h)%nat ->
  (forall j, (j < dim1 h)%nat -> item2 m i j = 0%Z) ->
  (forall j k, (j < dim1 h)%nat -> (k < dim2 h)%nat ->
               is_finite (item3 h i j k) = true) ->
  exists e out,
    mean_pooling h m = Some e /\
    sentence_embedding h m = Some out /\
    (forall k, (k < dim2 h)%nat -> item2 e i k = Fin 0) /\
    row_norm e i = Fin 0 /\
    (forall k, (k < dim2 h)%nat ->
               item2 out i k = fdiv (Fin 0) (Fin 0) /\ item2 out i k = NaN) /\
    row_norm out i <> Fin 1.
Proof.
  intros Hm Hi Hzero Hfin. unfold sentence_embedding.
  destruct (mean_pooling_spec Hm) as (e & He & Hr & Hc & Hitem).
  destruct (normalize_spec e) as (out & Hout & Hor & Hoc & Ho).
  exists e, out. rewrite He. split; [reflexivity |].
  split; [exact Hout |].
  assert (Hz : forall k, (k < dim2 h)%nat -> item2 e i k = Fin 0).
  { intros k Hk. rewrite Hitem by assumption.
    unfold spec_mean, spec_masked_sum, spec_mask_sum.
    assert (E1 : reduce_add (dim1 h)
                   (fun j => fmul (item3 h i j k) (spec_mask m i j)) =
                 Fin 0).
    { rewrite (@reduce_add_ext (dim1 h) _
                 (fun j => Fin (to_R (item3 h i j k) * 0))).
      - rewrite reduce_add_fin, Rsum_zero by (intros; ring). reflexivity.
      - intros j Hj. unfold spec_mask. rewrite Hzero by assumption.
        rewrite (@is_finite_to_R _ (Hfin j k Hj Hk)) at 1. reflexivity. }
    assert (E2 : reduce_add (dim1 h) (fun j => spec_mask m i j) = Fin 0).
    { rewrite (@reduce_add_ext (dim1 h) _ (fun j => Fin 0)).
      - rewrite reduce_add_fin, Rsum_zero by (intros; ring). reflexivity.
      - intros j Hj. unfold spec_mask. rewrite Hzero by assumption.
        reflexivity. }
    rewrite E1, E2, fmaximum_fin.
    rewrite fdiv_fin.
    - f_equal. unfold Rdiv. ring.
    - pose proof (Rmax_r 0 1e-9). lra. }
  assert (Hn : row_norm e i = Fin 0).
  { rewrite (@row_norm_ext e _ (fun _ => Fin 0) i Hc Hz).
    cbn [fmul]. rewrite reduce_add_fin, Rsum_zero by (intros; ring).
    rewrite fsqrt_fin by lra. rewrite sqrt_0. reflexivity. }
  split; [exact Hz |]. split; [exact Hn |].
  assert (Hnan : forall k, (k < dim2 h)%nat -> item2 out i k = NaN).
  { intros k Hk. rewrite Ho by (rewrite ?Hr, ?Hc; assumption).
    rewrite Hz by assumption. rewrite Hn. apply fdiv_zero_zero. }
  split.
  - intros k Hk. split; [| apply Hnan; exact Hk].
    rewrite Ho by (rewrite ?Hr, ?Hc; assumption).
    rewrite Hz by assumption. rewrite Hn. reflexivity.
  - unfold row_norm. rewrite Hoc, Hc.
    destruct (dim2 h) as [| c] eqn:Ec.
    + simpl. rewrite sgn_zero. intros H. inversion H.
      rewrite sqrt_0 in *. lra.
    + rewrite (@reduce_add_nan (S c)); [simpl; discriminate | lia |].
      intros k Hk. rewrite Hnan by exact Hk. reflexivity.
Qed.

(** C7. With an all-ones attention mask (and at least one token position),
    the mean-pooled vector of every batch row, before normalisation, is the
    unweighted arithmetic mean of that row's token vectors. *)
Theorem C7_all_ones_mask_gives_arithmetic_mean
        (h : array3 fval) (m : array2 Z) :
  matching h m ->
  (0 < dim1 h)%nat ->
  (forall i j, (i < dim0 h)%nat -> (j < dim1 h)%nat -> item2 m i j = 1%Z) ->
  exists e,
    mean_pooling h m = Some e /\
    rows e = dim0 h /\ cols e = dim2 h /\
    forall i k, (i < dim0 h)%nat -> (k < dim2 h)%nat ->
                item2 e i k = arithmetic_mean h i k.
Proof.
  intros Hm Hpos Hones.
  destruct (mean_pooling_spec Hm) as (e & He & Hr & Hc & Hitem).
  exists e. repeat (split; [assumption |]).
  intros i k Hi Hk. rewrite Hitem by assumption.
  unfold spec_mean, spec_masked_sum, spec_mask_sum, arithmetic_mean.
  f_equal.
  - apply reduce_add_ext. intros j Hj. unfold spec_mask.
    rewrite Hones by assumption. apply fmul_one_r.
  - rewrite (@reduce_add_ext (dim1 h) _ (fun j => Fin 1)).
    2:{ intros j Hj. unfold spec_mask. rewrite Hones by assumption.
        reflexivity. }
    rewrite reduce_add_fin, Rsum_const, fmaximum_fin. f_equal.
    rewrite Rmult_1_r. apply Rmax_left.
    assert (1 <= INR (dim1 h)).
    { change 1 with (INR 1). apply le_INR. lia. }
    lra.
Qed.

(** *** The theorems at concrete inputs *)

Import Inputs.

Ltac rmax :=
  repeat match goal with
         | |- context [Rmax ?a ?b] =>
             first [ rewrite (Rmax_left a b) by lra
                   | rewrite (Rmax_right a b) by lra ]
         end.

Ltac fin_eval :=
  cbn -[fdiv fsqrt Rmax]; rmax; repeat (rewrite fdiv_fin by lra).

Ltac below2 :=
  match goal with
  | |- forall j : nat, _ =>
      let j := fresh "j" in
      intros j; destruct j as [| [| j]]; try (intros; lia); below2
  | |- _ => intros; try reflexivity
  end.

(** The first sequence keeps only the token (3, 4): its embedding is
    (3/5, 4/5).  The second sequence is fully masked: its embedding is NaN. *)
Example sentence_embedding_hidden22 :
  exists out,
    sentence_embedding hidden22 mask_first_only = Some out /\
    item2 out 0 0 = Fin (3 / 5) /\ item2 out 0 1 = Fin (4 / 5) /\
    item2 out 1 0 = NaN /\ item2 out 1 1 = NaN.
Proof.
  eexists. split; [reflexivity |].
  repeat split; fin_eval; cbn -[fdiv fsqrt].
  - rewrite (@fsqrt_fin_eq _ 5) by (lra || field).
    rewrite fdiv_fin by lra. f_equal. field.
  - rewrite (@fsqrt_fin_eq _ 5) by (lra || field).
    rewrite fdiv_fin by lra. f_equal. field.
  - rewrite (@fsqrt_fin_eq _ 0) by (lra || field).
    match goal with |- fdiv (Fin ?x) _ = _ => replace x with 0 by field end.
    apply fdiv_zero_zero.
  - rewrite (@fsqrt_fin_eq _ 0) by (lra || field).
    match goal with |- fdiv (Fin ?x) _ = _ => replace x with 0 by field end.
    apply fdiv_zero_zero.
Qed.

Lemma C1_witness_hidden22 :
  matching hidden22 mask_first_only /\
  exists out,
    sentence_embedding hidden22 mask_first_only = Some out /\
    rows out = 2%nat /\ cols out = 2%nat /\
    forall i k, (i < 2)%nat -> (k < 2)%nat ->
                item2 out i k =
                spec_sentence_embedding hidden22 mask_first_only i k.
Proof.
  assert (H : matching hidden22 mask_first_only) by (split; reflexivity).
  split; [exact H |].
  exact (C1_sentence_embedding_is_masked_mean_normalized H).
Defined.

Lemma C5_witness_fully_masked_row :
  exists e,
    input_mask_expanded hidden22 mask_first_only = Some e /\
    forall i k,
    exists d, item2 (sum_mask e) i k = Fin d /\
              1e-9 <= d /\ 0 < d /\
              forall x, fdiv (Fin x) (item2 (sum_mask e) i k) = Fin (x / d).
Proof.
  eexists. split; [reflexivity |].
  exact (@C5_pooling_denominator_at_least_epsilon
           hidden22 mask_first_only _ eq_refl).
Defined.

(** The denominator of the fully masked second sequence is exactly 1e-9. *)
Example sum_mask_fully_masked_row :
  exists e,
    input_mask_expanded hidden22 mask_first_only = Some e /\
    item2 (sum_mask e) 1 0 = Fin 1e-9 /\ item2 (sum_mask e) 0 0 = Fin 1.
Proof.
  eexists. split; [reflexivity |].
  split; cbn -[Rmax]; rmax; f_equal; lra.
Qed.

Lemma C6_witness_fully_masked_row :
  (matching hidden22 mask_first_only /\
   (1 < dim0 hidden22)%nat /\
   (forall j, (j < dim1 hidden22)%nat -> item2 mask_first_only 1 j = 0%Z) /\
   (forall j k, (j < dim1 hidden22)%nat -> (k < dim2 hidden22)%nat ->
                is_finite (item3 hidden22 1 j k) = true)) /\
  exists e out,
    mean_pooling hidden22 mask_first_only = Some e /\
    sentence_embedding hidden22 mask_first_only = Some out /\
    (forall k, (k < dim2 hidden22)%nat -> item2 e 1 k = Fin 0) /\
    row_norm e 1 = Fin 0 /\
    (forall k, (k < dim2 hidden22)%nat ->
               item2 out 1 k = fdiv (Fin 0) (Fin 0) /\ item2 out 1 k = NaN) /\
    row_norm out 1 <> Fin 1.
Proof.
  assert (H1 : matching hidden22 mask_first_only) by (split; reflexivity).
  assert (H2 : (1 < dim0 hidden22)%nat) by (cbn; lia).
  assert (H3 : forall j, (j < dim1 hidden22)%nat ->
                         item2 mask_first_only 1 j = 0%Z)
    by (cbn; below2).
  assert (H4 : forall j k, (j < dim1 hidden22)%nat ->
                           (k < dim2 hidden22)%nat ->
                           is_finite (item3 hidden22 1 j k) = true)
    by (cbn; below2).
  split; [repeat split; assumption |].
  exact (C6_all_masked_row_is_not_normalized H1 H2 H3 H4).
Defined.

Lemma C7_witness_all_ones :
  (matching hidden22 mask_all_ones /\
   (0 < dim1 hidden22)%nat /\
   (forall i j, (i < dim0 hidden22)%nat -> (j < dim1 hidden22)%nat ->
                item2 mask_all_ones i j = 1%Z)) /\
  exists e,
    mean_pooling hidden22 mask_all_ones = Some e /\
    rows e = dim0 hidden22 /\ cols e = dim2 hidden22 /\
    forall i k, (i < dim0 hidden22)%nat -> (k < dim2 hidden22)%nat ->
                item2 e i k = arithmetic_mean hidden22 i k.
Proof.
  assert (H1 : matching hidden22 mask_all_ones) by (split; reflexivity).
  assert (H2 : (0 < dim1 hidden22)%nat) by (cbn; lia).
  assert (H3 : forall i j, (i < dim0 hidden22)%nat ->
                           (j < dim1 hidden22)%nat ->
                           item2 mask_all_ones i j = 1%Z)
    by (cbn; below2).
  split; [repeat split; assumption |].
  exact (C7_all_ones_mask_gives_arithmetic_mean H1 H2 H3).
Defined.

(** With all ones, the first sequence pools to ((3+1)/2, (4+1)/2). *)
Example mean_pooling_all_ones :
  exists e,
    mean_pooling hidden22 mask_all_ones = Some e /\
    item2 e 0 0 = Fin 2 /\ item2 e 0 1 = Fin (5 / 2).
Proof.
  eexists. split; [reflexivity |].
  split; fin_eval; f_equal; field.
Qed.

End PoolingFacts.

(** ** Nearest-reference classification (convert_minilm_to_tflite*.py) *)

Section ClassifierFacts.

Import NpFloat Numpy Classifier.
Local Open Scope R_scope.

Lemma fold_left_Rmax_ge (l : list R) (x : R) : x <= fold_left Rmax l x.
Proof.
  revert x. induction l as [| y l IH]; intros x; simpl; [lra |].
  apply Rle_trans with (Rmax x y); [apply Rmax_l | apply IH].
Qed.

Lemma fold_left_Rmax_upper (l : list R) (x y : R) :
  In y l -> y <= fold_left Rmax l x.
Proof.
  revert x. induction l as [| z l IH]; intros x Hin; simpl in *.
  - contradiction.
  - destruct Hin as [-> | Hin].
    + apply Rle_trans with (Rmax x y);
        [apply Rmax_r | apply fold_left_Rmax_ge].
    + apply IH. exact Hin.
Qed.

Lemma fold_left_Rmax_in (l : list R) (x : R) :
  fold_left Rmax l x = x \/ In (fold_left Rmax l x) l.
Proof.
  revert x. induction l as [| z l IH]; intros x; simpl.
  - left. reflexivity.
  - destruct (IH (Rmax x z)) as [H | H].
    + rewrite H. unfold Rmax. destruct (Rle_dec x z); auto.
    + right. right. exact H.
Qed.

Lemma list_max_of_unique (l l' : list R) (v v' : R) :
  (forall y, In y l <-> In y l') ->
  list_max_of l v -> list_max_of l' v' -> v = v'.
Proof.
  intros Heq [Hin Hub] [Hin' Hub'].
  apply Rle_antisym.
  - apply Hub'. apply Heq. exact Hin.
  - apply Hub. apply Heq. exact Hin'.
Qed.

Lemma ndarray_max_spec (a : array2 R) (v : R) :
  ndarray_max a = Some v -> list_max_of (ravel a) v.
Proof.
  unfold ndarray_max. destruct (ravel a) as [| x l]; [discriminate |].
  intros H. inversion H. subst v. clear H. split.
  - destruct (fold_left_Rmax_in l x) as [-> | Hin]; [left | right]; auto.
  - intros y [<- | Hin].
    + apply fold_left_Rmax_ge.
    + apply fold_left_Rmax_upper. exact Hin.
Qed.

Lemma in_ravel (a : array2 R) (x : R) :
  In x (ravel a) <->
  exists i j, (i < rows a)%nat /\ (j < cols a)%nat /\ x = item2 a i j.
Proof.
  unfold ravel. rewrite in_flat_map. split.
  - intros (i & Hi & Hx). apply in_map_iff in Hx.
    destruct Hx as (j & <- & Hj). apply in_seq in Hi, Hj.
    exists i, j. repeat split; lia.
  - intros (i & j & Hi & Hj & ->). exists i. split.
    + apply in_seq. lia.
    + apply in_map. apply in_seq. lia.
Qed.

Lemma ndarray_max_some (a : array2 R) :
  (0 < rows a)%nat -> (0 < cols a)%nat -> exists v, ndarray_max a = Some v.
Proof.
  intros Hr Hc. unfold ndarray_max.
  destruct (ravel a) as [| x l] eqn:E; [| eexists; reflexivity].
  exfalso. assert (Hin : In (item2 a 0 0) (ravel a)).
  { apply in_ravel. exists O, O. repeat split; assumption. }
  rewrite E in Hin. exact Hin.
Qed.

Lemma cosine_similarity_some (X Y : array2 R) :
  (0 < rows X)%nat -> (0 < rows Y)%nat -> (0 < cols X)%nat ->
  cols Y = cols X ->
  cosine_similarity X Y = Some (Array2 (rows X) (rows Y) (cos_sim X Y)).
Proof.
  intros Hx Hy Hc Heq. unfold cosine_similarity, check_array.
  rewrite Heq, Nat.eqb_refl.
  destruct (rows X); [lia |]. destruct (rows Y); [lia |].
  destruct (cols X); [lia |]. reflexivity.
Qed.

Lemma max_of_similarity_matrix (X Y : array2 R) (v : R) :
  ndarray_max (Array2 (rows X) (rows Y) (cos_sim X Y)) = Some v ->
  is_max_similarity X Y v.
Proof.
  intros H. apply ndarray_max_spec in H. destruct H as [Hin Hub]. split.
  - apply in_ravel in Hin. simpl in Hin. exact Hin.
  - intros i j Hi Hj. apply Hub. apply in_ravel. simpl.
    exists i, j. repeat split; assumption.
Qed.

Lemma handle_zeros_nonzero (n : R) : n <> 0 -> handle_zeros n = n.
Proof.
  intros H. unfold handle_zeros. destruct (Req_dec_T n 0); [contradiction |].
  reflexivity.
Qed.

(** For rows that are not zero, [cos_sim] is the cosine of the angle: the
    dot product over the product of the norms. *)
Lemma cos_sim_is_cosine (X Y : array2 R) (i j : nat) :
  cols Y = cols X ->
  l2_norm X i <> 0 -> l2_norm Y j <> 0 ->
  cos_sim X Y i j =
  Rsum (cols X) (fun k => item2 X i k * item2 Y j k) /
  (l2_norm X i * l2_norm Y j).
Proof.
  intros Hc Hx Hy. unfold cos_sim, normalize. cbn [item2].
  rewrite !handle_zeros_nonzero by assumption.
  unfold Rdiv at 3. rewrite Rmult_comm, <- Rsum_scal.
  apply Rsum_ext_R. intros k _. field. split; assumption.
Qed.

Lemma classification_strict (s l : R) : classification s l = SCAM <-> s > l.
Proof.
  unfold classification. destruct (Rgt_dec s l); split; intros H;
    try reflexivity; try assumption; try discriminate; contradiction.
Qed.

(** C2. For every query and every pair of non-empty reference sets of the
    query's dimension, the classification succeeds; its two scores are the
    largest cosine similarities of the query to the scam set and to the
    legitimate set; the label is SCAM exactly when the scam score strictly
    exceeds the legitimate score, and LEGITIMATE when the two are equal. *)
Theorem C2_scam_iff_scam_max_strictly_greater
        (query scam legit : array2 R) :
  (0 < rows query)%nat -> (0 < cols query)%nat ->
  (0 < rows scam)%nat -> cols scam = cols query ->
  (0 < rows legit)%nat -> cols legit = cols query ->
  exists r,
    classify query scam legit = Some r /\
    is_max_similarity query scam (scam_sim r) /\
    is_max_similarity query legit (legit_sim r) /\
    (verdict r = SCAM <-> scam_sim r > legit_sim r) /\
    (verdict r = LEGITIMATE <-> scam_sim r <= legit_sim r) /\
    (scam_sim r = legit_sim r -> verdict r = LEGITIMATE).
Proof.
  intros Hq Hc Hs Hsc Hl Hlc. unfold classify.
  rewrite (@cosine_similarity_some query scam Hq Hs Hc Hsc).
  rewrite (@cosine_similarity_some query legit Hq Hl Hc Hlc).
  destruct (@ndarray_max_some (Array2 (rows query) (rows scam)
                                      (cos_sim query scam)) Hq Hs)
    as (s & Es).
  destruct (@ndarray_max_some (Array2 (rows query) (rows legit)
                                      (cos_sim query legit)) Hq Hl)
    as (l & El).
  rewrite Es, El. eexists. split; [reflexivity |]. simpl.
  split; [apply max_of_similarity_matrix; exact Es |].
  split; [apply max_of_similarity_matrix; exact El |].
  pose proof (classification_strict s l) as Hiff.
  split; [exact Hiff |].
  assert (Hleg : classification s l = LEGITIMATE <-> s <= l).
  { unfold classification. destruct (Rgt_dec s l); split; intros H;
      try reflexivity; try discriminate; lra. }
  split; [exact Hleg |].
  intros Heq. apply Hleg. lra.
Qed.

Lemma classify_by_scores (query scam legit : array2 R) :
  classify query scam legit =
  match max_similarity query scam, max_similarity query legit with
  | Some s, Some l => Some (Result s l (classification s l))
  | _, _ => None
  end.
Proof.
  unfold classify, max_similarity.
  destruct (cosine_similarity query scam) as [Ks |]; [| reflexivity].
  destruct (ndarray_max Ks); [| reflexivity].
  destruct (cosine_similarity query legit) as [Kl |]; [| reflexivity].
  destruct (ndarray_max Kl); reflexivity.
Qed.

Lemma ndarray_max_same_items (a b : array2 R) :
  (forall y, In y (ravel a) <-> In y (ravel b)) ->
  ndarray_max a = ndarray_max b.
Proof.
  intros Heq.
  destruct (ndarray_max a) as [v |] eqn:Ea;
    destruct (ndarray_max b) as [v' |] eqn:Eb.
  - f_equal. apply (list_max_of_unique Heq); apply ndarray_max_spec;
      assumption.
  - exfalso. apply ndarray_max_spec in Ea. destruct Ea as [Hin _].
    apply Heq in Hin. unfold ndarray_max in Eb.
    destruct (ravel b); [exact Hin | discriminate].
  - exfalso. apply ndarray_max_spec in Eb. destruct Eb as [Hin _].
    apply Heq in Hin. unfold ndarray_max in Ea.
    destruct (ravel a); [exact Hin | discriminate].
  - reflexivity.
Qed.

Lemma cos_sim_take_rows (query refs : array2 R) (idx : list nat)
      (i j : nat) :
  cos_sim query (take_rows idx refs) i j = cos_sim query refs i (nth j idx O).
Proof. reflexivity. Qed.

(** Reordering the reference set does not change its score. *)
Lemma max_similarity_take_rows (query refs : array2 R) (idx : list nat) :
  Permutation idx (seq 0 (rows refs)) ->
  max_similarity query (take_rows idx refs) = max_similarity query refs.
Proof.
  intros Hp.
  assert (Hlen : length idx = rows refs).
  { rewrite (Permutation_length Hp). apply length_seq. }
  unfold max_similarity, cosine_similarity, check_array. simpl.
  rewrite Hlen.
  destruct (negb (rows query =? 0)%nat && negb (cols query =? 0)%nat &&
            (negb (rows refs =? 0)%nat && negb (cols refs =? 0)%nat) &&
            (cols query =? cols refs)%nat); [| reflexivity].
  apply ndarray_max_same_items. intros y. rewrite !in_ravel. simpl.
  split.
  - intros (i & j & Hi & Hj & ->). exists i, (nth j idx O).
    repeat split; trivial.
    assert (Hin : In (nth j idx O) idx) by (apply nth_In; lia).
    apply (Permutation_in _ Hp) in Hin. apply in_seq in Hin. lia.
  - intros (i & j & Hi & Hj & ->).
    assert (Hin : In j idx).
    { apply (Permutation_in _ (Permutation_sym Hp)). apply in_seq. lia. }
    destruct (In_nth idx j O Hin) as (n & Hn & Hnth).
    exists i, n. repeat split; try lia.
    rewrite cos_sim_take_rows, Hnth. reflexivity.
Qed.

(** C4. Reordering the entries of the scam set and of the legitimate set,
    by any two permutations, leaves the classification result unchanged:
    the label and both maximum-similarity scores (and also whether the
    classification succeeds at all). *)
Theorem C4_classification_invariant_under_reordering
        (query scam legit : array2 R) (idx_scam idx_legit : list nat) :
  Permutation idx_scam (seq 0 (rows scam)) ->
  Permutation idx_legit (seq 0 (rows legit)) ->
  classify query (take_rows idx_scam scam) (take_rows idx_legit legit) =
  classify query scam legit.
Proof.
  intros Hs Hl. rewrite !classify_by_scores.
  rewrite (max_similarity_take_rows query scam Hs).
  rewrite (max_similarity_take_rows query legit Hl).
  reflexivity.
Qed.

(** *** The theorems at concrete inputs *)

Import Inputs.

Lemma C2_witness_query2 :
  ((0 < rows query2)%nat /\ (0 < cols query2)%nat /\
   (0 < rows scam2)%nat /\ cols scam2 = cols query2 /\
   (0 < rows legit2)%nat /\ cols legit2 = cols query2) /\
  exists r,
    classify query2 scam2 legit2 = Some r /\
    is_max_similarity query2 scam2 (scam_sim r) /\
    is_max_similarity query2 legit2 (legit_sim r) /\
    (verdict r = SCAM <-> scam_sim r > legit_sim r) /\
    (verdict r = LEGITIMATE <-> scam_sim r <= legit_sim r) /\
    (scam_sim r = legit_sim r -> verdict r = LEGITIMATE).
Proof.
  split; [cbn; repeat split; lia |].
  apply C2_scam_iff_scam_max_strictly_greater; cbn; lia.
Defined.

(** Equal scores give LEGITIMATE: a reference set compared with itself. *)
Example tie_is_legitimate :
  exists r, classify query2 scam2 scam2 = Some r /\
            scam_sim r = legit_sim r /\ verdict r = LEGITIMATE.
Proof.
  rewrite classify_by_scores.
  destruct (max_similarity query2 scam2) as [s |] eqn:E.
  - eexists. split; [reflexivity |]. cbn. split; [reflexivity |].
    unfold classification. destruct (Rgt_dec s s); [lra | reflexivity].
  - exfalso. unfold max_similarity in E.
    rewrite cosine_similarity_some in E by (cbn; lia).
    destruct (@ndarray_max_some
                (Array2 (rows query2) (rows scam2) (cos_sim query2 scam2)))
      as (v & Hv); [cbn; lia | cbn; lia |].
    rewrite Hv in E. discriminate.
Qed.

Lemma C4_witness_reordered_sets :
  (Permutation [1; 0]%nat (seq 0 (rows scam2)) /\
   Permutation [2; 0; 1]%nat (seq 0 (rows legit2))) /\
  classify query2 (take_rows [1; 0]%nat scam2)
           (take_rows [2; 0; 1]%nat legit2) =
  classify query2 scam2 legit2.
Proof.
  assert (Hs : Permutation [1; 0]%nat (seq 0 (rows scam2)))
    by (cbn; apply perm_swap).
  assert (Hl : Permutation [2; 0; 1]%nat (seq 0 (rows legit2))).
  { cbn. apply perm_trans with [0; 2; 1]%nat.
    - apply perm_swap.
    - apply perm_skip. apply perm_swap. }
  split; [split; assumption |].
  exact (C4_classification_invariant_under_reordering query2 scam2 legit2
           Hs Hl).
Defined.

End ClassifierFacts.

(** ** Vocabulary export (convert_minilm_to_onnx.py, steps 4 and 5) *)

Section VocabFacts.

Import String VocabExport.
Local Open Scope string_scope.

Lemma insert_by_id_perm (x : string * Z) (l : list (string * Z)) :
  Permutation (insert_by_id x l) (x :: l).
Proof.
  induction l as [| y l IH]; simpl.
  - apply Permutation_refl.
  - destruct (Z.leb (snd x) (snd y)).
    + apply Permutation_refl.
    + apply perm_trans with (y :: x :: l).
      * apply perm_skip. exact IH.
      * apply perm_swap.
Qed.

Lemma sorted_by_id_perm (l : list (string * Z)) :
  Permutation (sorted_by_id l) l.
Proof.
  induction l as [| x l IH]; simpl.
  - apply perm_nil.
  - apply perm_trans with (x :: sorted_by_id l).
    + apply insert_by_id_perm.
    + apply perm_skip. exact IH.
Qed.

Lemma insert_by_id_sorted (x : string * Z) (l : list (string * Z)) :
  ascending_ids l -> ascending_ids (insert_by_id x l).
Proof.
  unfold ascending_ids. induction l as [| y l IH]; intros Hs; simpl.
  - constructor; constructor.
  - destruct (Z.leb (snd x) (snd y)) eqn:E.
    + apply Z.leb_le in E. constructor; [exact Hs |].
      inversion Hs as [| ? ? Hs' Hall]; subst.
      constructor; [exact E |].
      eapply Forall_impl; [| exact Hall]. simpl. intros; lia.
    + apply Z.leb_gt in E.
      inversion Hs as [| ? ? Hs' Hall]; subst.
      constructor; [apply IH; exact Hs' |].
      apply (Permutation_Forall (Permutation_sym (insert_by_id_perm x l))).
      constructor; [lia | exact Hall].
Qed.

Lemma sorted_by_id_sorted (l : list (string * Z)) :
  ascending_ids (sorted_by_id l).
Proof.
  induction l as [| x l IH]; simpl.
  - constructor.
  - apply insert_by_id_sorted. exact IH.
Qed.

Lemma read_lines_token (t rest : string) :
  has_LF t = false ->
  read_lines (t ++ String LF rest) = t :: read_lines rest.
Proof.
  induction t as [| c t IH]; simpl; intros H.
  - reflexivity.
  - apply orb_false_iff in H. destruct H as [Hc Ht].
    rewrite Hc, (IH Ht). reflexivity.
Qed.

Lemma append_assoc (a b c : string) : (a ++ b) ++ c = a ++ (b ++ c).
Proof.
  induction a as [| x a IH]; simpl; [reflexivity |]. rewrite IH. reflexivity.
Qed.

Lemma append_empty_r (a : string) : a ++ "" = a.
Proof.
  induction a as [| x a IH]; simpl; [reflexivity |]. rewrite IH. reflexivity.
Qed.

(** The text written by the loop, as one concatenation. *)
Lemma written_text (l : list (string * Z)) (content : string) :
  fold_left (fun content item => content ++ (fst item ++ newline)) l content
  = content ++ fold_right (fun item rest => fst item ++ String LF rest)
                          "" l.
Proof.
  revert content. induction l as [| x l IH]; intros content; simpl.
  - symmetry. apply append_empty_r.
  - rewrite IH. rewrite !append_assoc. reflexivity.
Qed.

Lemma read_lines_written (l : list (string * Z)) :
  Forall (fun item => has_LF (fst item) = false) l ->
  read_lines (fold_right (fun item rest => fst item ++ String LF rest)
                         "" l) = map fst l.
Proof.
  induction 1 as [| x l Hx Hl IH]; simpl.
  - reflexivity.
  - rewrite (read_lines_token _ _ Hx), IH. reflexivity.
Qed.

Lemma vocab_file_lines_are_sorted_tokens (tokenizer : Tokenizer) :
  Forall (fun item => has_LF (fst item) = false) (get_vocab tokenizer) ->
  vocab_file_lines tokenizer = map fst (sorted_vocab tokenizer).
Proof.
  intros H. unfold vocab_file_lines, vocab_file.
  rewrite written_text. simpl. apply read_lines_written.
  apply (Permutation_Forall (Permutation_sym (sorted_by_id_perm _))).
  exact H.
Qed.

(** C8.  The script loads the tokenizer of one fixed checkpoint and adds
    no token to it, so [tokenizer.vocab_size] is the number of entries of
    [get_vocab()]; its tokens come from a vocabulary of one token per line,
    so none holds a line feed.  For such a tokenizer the number of lines of
    the written vocabulary file is the vocabulary size that the exported
    configuration reports, and the lines are the tokens in ascending order
    of their ids: line i holds the token with the i-th smallest id. *)
Theorem C8_vocab_file_lines_match_reported_size
        (tokenizer : Tokenizer) :
  vocab_size tokenizer = Z.of_nat (List.length (get_vocab tokenizer)) ->
  Forall (fun item => has_LF (fst item) = false) (get_vocab tokenizer) ->
  reported_vocab_size tokenizer =
    Some (JInt (Z.of_nat (List.length (vocab_file_lines tokenizer)))) /\
  vocab_file_lines tokenizer = map fst (sorted_vocab tokenizer) /\
  Permutation (sorted_vocab tokenizer) (get_vocab tokenizer) /\
  ascending_ids (sorted_vocab tokenizer).
Proof.
  intros Hsize H.
  pose proof (vocab_file_lines_are_sorted_tokens tokenizer H) as Hlines.
  pose proof (sorted_by_id_perm (get_vocab tokenizer)) as Hperm.
  assert (Hlen : List.length (vocab_file_lines tokenizer) =
                 List.length (get_vocab tokenizer)).
  { rewrite Hlines, length_map. apply Permutation_length. exact Hperm. }
  split.
  { rewrite Hlen, <- Hsize. reflexivity. }
  split; [exact Hlines |]. split; [exact Hperm |].
  apply sorted_by_id_sorted.
Qed.

(** An instance of C8 on a tokenizer whose dict is not in id order. *)
Lemma C8_witness_three_tokens :
  (vocab_size small_tokenizer =
     Z.of_nat (List.length (get_vocab small_tokenizer)) /\
   Forall (fun item => has_LF (fst item) = false)
          (get_vocab small_tokenizer)) /\
  (reported_vocab_size small_tokenizer =
     Some (JInt (Z.of_nat
                   (List.length (vocab_file_lines small_tokenizer)))) /\
   vocab_file_lines small_tokenizer = map fst (sorted_vocab small_tokenizer)
   /\
   Permutation (sorted_vocab small_tokenizer) (get_vocab small_tokenizer) /\
   ascending_ids (sorted_vocab small_tokenizer)).
Proof.
  assert (Hsize : vocab_size small_tokenizer =
                  Z.of_nat (List.length (get_vocab small_tokenizer)))
    by reflexivity.
  assert (H : Forall (fun item => has_LF (fst item) = false)
                     (get_vocab small_tokenizer))
    by (repeat constructor).
  split; [split; assumption |].
  exact (C8_vocab_file_lines_match_reported_size small_tokenizer Hsize H).
Defined.

Example vocab_file_small :
  vocab_file small_tokenizer = "[PAD]" ++ newline ++ "hello" ++ newline
                               ++ "world" ++ newline
  /\ vocab_file_lines small_tokenizer = ["[PAD]"; "hello"; "world"].
Proof. split; reflexivity. Qed.

End VocabFacts.

(** ** Failures in convert_minilm_to_onnx.py *)

Section ScriptFacts.

Import String OnnxScript.
Local Open Scope string_scope.

Ltac run_script :=
  unfold run, script, step1, step2, step3, step4, step5, step6, summary,
         quantization_body, quantization_handler, inference_handler,
         try_except, seq_, call, print, assign_final_model_path,
         setup_raises, quantization_raises, file_export_raises, first_raise,
         caught in *;
  cbn -[append] in *.

(** Follow the calls in the order the script makes them. *)
Ltac next_call :=
  match goal with
  | H : context [match ?x with _ => _ end] |- _ =>
      is_var x; destruct x as [[?m | ?m] |]; cbn -[append] in *
  | |- context [match ?x with _ => _ end] =>
      is_var x; destruct x as [[?m | ?m] |]; cbn -[append] in *
  end.

(** A line is on the console. *)
Ltac printed := solve [repeat (first [left; reflexivity | right])].

Ltac same_exception :=
  repeat match goal with
         | H : Some _ = Some _ |- _ => inversion H; subst; clear H
         end.

Ltac settle :=
  try discriminate; same_exception; try congruence;
  repeat split; try reflexivity; try congruence; try printed.

Ltac follow := run_script; repeat (settle; next_call); settle.

(** A failure in steps 1 and 2 ends the run with that exception. *)
Lemma setup_failure_propagates (w : world) (e : exn) :
  setup_raises w = Some e ->
  snd (run w) = Raised e /\ final_model_path (fst (run w)) = None.
Proof. destruct w. intros H. follow. Qed.

(** An [Exception] raised in the quantisation step is caught. *)
Lemma quantization_caught (w : world) (msg : string) :
  setup_raises w = None ->
  quantization_raises w = Some (Exception msg) ->
  final_model_path (fst (run w)) = Some onnx_model_path /\
  In ("[WARNING] Quantization failed: " ++ msg) (stdout (fst (run w))) /\
  In "[4/5] Exporting tokenizer vocabulary..." (stdout (fst (run w))) /\
  (file_export_raises w = None -> caught (test_inference w) = true ->
   snd (run w) = Normal).
Proof. destruct w. intros Hs Hq. follow; intros; follow. Qed.

Lemma quantization_succeeds (w : world) :
  setup_raises w = None ->
  quantization_raises w = None ->
  final_model_path (fst (run w)) = Some quantized_model_path /\
  In "[OK] Model quantized" (stdout (fst (run w))) /\
  (file_export_raises w = None -> caught (test_inference w) = true ->
   snd (run w) = Normal).
Proof. destruct w. intros Hs Hq. follow; intros; follow. Qed.

(** What [except Exception] does not catch leaves the [try] block. *)
Lemma quantization_base_exception_propagates (w : world) (msg : string) :
  setup_raises w = None ->
  quantization_raises w = Some (BaseException msg) ->
  snd (run w) = Raised (BaseException msg).
Proof. destruct w. intros Hs Hq. follow. Qed.

(** A failure in steps 4 and 5 ends the run with that exception. *)
Lemma file_export_failure_propagates (w : world) (e : exn) :
  setup_raises w = None ->
  caught (quantization_raises w) = true ->
  file_export_raises w = Some e ->
  snd (run w) = Raised e.
Proof. destruct w. intros Hs Hq Hf. follow. Qed.

(** An [Exception] raised by the test inference is caught as well. *)
Lemma inference_caught (w : world) (msg : string) :
  setup_raises w = None ->
  caught (quantization_raises w) = true ->
  file_export_raises w = None ->
  test_inference w = Some (Exception msg) ->
  snd (run w) = Normal /\
  In ("[WARNING] Test inference failed: " ++ msg) (stdout (fst (run w))).
Proof. destruct w. intros Hs Hq Hf Ht. follow. Qed.

(** C9, as amended.  An [Exception] raised in the quantisation step is caught:
    a warning is printed, the final model path is the unquantised ONNX
    artifact and the run goes on (it completes when the later steps do).
    When the quantisation step completes, the final model path is the
    quantised artifact.  A failure of model loading or ONNX export, and a
    failure of the vocabulary or configuration export, propagates and ends
    the run, and so does what [except Exception] does not catch.  An
    [Exception] raised by the final test inference is caught as well: a
    warning is printed and the run completes. *)
Theorem C9_quantization_fallback_and_failure_propagation :
  (forall w msg,
      setup_raises w = None ->
      quantization_raises w = Some (Exception msg) ->
      final_model_path (fst (run w)) = Some onnx_model_path /\
      In ("[WARNING] Quantization failed: " ++ msg) (stdout (fst (run w))) /\
      In "[4/5] Exporting tokenizer vocabulary..." (stdout (fst (run w))) /\
      (file_export_raises w = None -> caught (test_inference w) = true ->
       snd (run w) = Normal)) /\
  (forall w,
      setup_raises w = None ->
      quantization_raises w = None ->
      final_model_path (fst (run w)) = Some quantized_model_path) /\
  (forall w e,
      setup_raises w = Some e -> snd (run w) = Raised e) /\
  (forall w e,
      setup_raises w = None ->
      caught (quantization_raises w) = true ->
      file_export_raises w = Some e ->
      snd (run w) = Raised e) /\
  (forall w msg,
      setup_raises w = None ->
      quantization_raises w = Some (BaseException msg) ->
      snd (run w) = Raised (BaseException msg)) /\
  (forall w msg,
      setup_raises w = None ->
      caught (quantization_raises w) = true ->
      file_export_raises w = None ->
      test_inference w = Some (Exception msg) ->
      snd (run w) = Normal /\
      In ("[WARNING] Test inference failed: " ++ msg)
         (stdout (fst (run w)))).
Proof.
  split; [intros w msg; apply quantization_caught |].
  split; [intros w Hs Hq; apply (quantization_succeeds w Hs Hq) |].
  split; [intros w e H; apply (setup_failure_propagates w H) |].
  split; [intros w e; apply file_export_failure_propagates |].
  split; [intros w msg; apply quantization_base_exception_propagates |].
  intros w msg. apply inference_caught.
Qed.

(** C9, as stated, fails: not every failure outside the quantisation step
    propagates.  When the test inference raises, the exception is caught and
    the run completes. *)
Lemma C9_counterexample_inference_failure_is_caught :
  setup_raises inference_fails = None /\
  quantization_raises inference_fails = None /\
  file_export_raises inference_fails = None /\
  test_inference inference_fails =
    Some (Exception "No module named onnxruntime") /\
  snd (run inference_fails) = Normal /\
  snd (run inference_fails) <>
    Raised (Exception "No module named onnxruntime").
Proof. repeat split; try reflexivity. discriminate. Qed.

(** C9 at two concrete worlds: a failing and a succeeding quantisation. *)
Lemma C9_witness_fallback_and_success :
  (setup_raises quantization_fails = None /\
   quantization_raises quantization_fails =
     Some (Exception "unexpected keyword optimize_model")) /\
  (setup_raises all_fine = None /\ quantization_raises all_fine = None) /\
  final_model_path (fst (run quantization_fails)) = Some onnx_model_path /\
  snd (run quantization_fails) = Normal /\
  final_model_path (fst (run all_fine)) = Some quantized_model_path.
Proof.
  destruct C9_quantization_fallback_and_failure_propagation
    as (Hfail & Hok & _).
  split; [split; reflexivity |]. split; [split; reflexivity |].
  destruct (Hfail quantization_fails _ eq_refl eq_refl)
    as (Hpath & _ & _ & Hnormal).
  split; [exact Hpath |].
  split; [exact (Hnormal eq_refl eq_refl) |].
  exact (Hok all_fine eq_refl eq_refl).
Defined.

Example console_when_quantization_fails :
  stdout (fst (run quantization_fails)) =
  [ "[1/5] Loading MiniLM-L6-v2 model and tokenizer...";
    "[OK] Model loaded: sentence-transformers/all-MiniLM-L6-v2";
    "[2/5] Exporting model to ONNX format...";
    "[OK] Model exported to ONNX";
    "[3/5] Quantizing model for mobile deployment...";
    "[WARNING] Quantization failed: unexpected keyword optimize_model";
    "  Using non-quantized model";
    "[4/5] Exporting tokenizer vocabulary...";
    "[OK] Vocabulary saved";
    "[5/5] Exporting tokenizer configuration...";
    "[OK] Tokenizer config saved";
    "[6/6] Testing ONNX inference...";
    "[OK] Test inference successful";
    "EXPORT COMPLETE";
    "Model ready for Android deployment!" ].
Proof. reflexivity. Qed.

End ScriptFacts.

(** ** The normalisation in float32 *)

Section Float32Facts.

Import Float32 Float32Embedding.
Local Open Scope R_scope.

(** A quotient within relative error [u] of [x / n] has a square between
    [(1-u)^2] and [(1+u)^2] times [(x / n)^2]. *)
Lemma accurate_square (u w q : R) :
  0 <= u <= 1 -> Rabs (w - q) <= u * Rabs q ->
  (1 - u) * (1 - u) * (q * q) <= w * w <= (1 + u) * (1 + u) * (q * q).
Proof.
  intros Hu H.
  pose proof (Rabs_triang_inv2 w q) as Ht.
  pose proof (Rabs_pos q) as Hq. pose proof (Rabs_pos w) as Hw.
  assert (Hb : (1 - u) * Rabs q <= Rabs w <= (1 + u) * Rabs q).
  { unfold Rabs at 1 in Ht.
    destruct (Rcase_abs (Rabs w - Rabs q)); split; lra. }
  replace (w * w) with (Rabs w * Rabs w)
    by (rewrite <- Rabs_mult; apply Rabs_pos_eq; nra).
  replace (q * q) with (Rabs q * Rabs q)
    by (rewrite <- Rabs_mult; apply Rabs_pos_eq; nra).
  assert (H0 : 0 <= (1 - u) * Rabs q) by nra.
  split.
  - replace ((1 - u) * (1 - u) * (Rabs q * Rabs q))
      with ((1 - u) * Rabs q * ((1 - u) * Rabs q)) by ring.
    apply Rmult_le_compat; lra.
  - replace ((1 + u) * (1 + u) * (Rabs q * Rabs q))
      with ((1 + u) * Rabs q * ((1 + u) * Rabs q)) by ring.
    apply Rmult_le_compat; lra.
Qed.

Lemma sum_of_squares_quotients (u n : R) (quot : float32 -> float32)
      (row : list float32) :
  0 <= u <= 1 -> 0 < n ->
  Forall (fun v => Rabs (value (quot v) - value v / n)
                   <= u * Rabs (value v / n)) row ->
  (1 - u) * (1 - u) * sum_of_squares row
  <= sum_of_squares (map quot row) * (n * n)
  <= (1 + u) * (1 + u) * sum_of_squares row.
Proof.
  intros Hu Hn. induction 1 as [| v row Hv _ IH]; simpl; [lra |].
  pose proof (@accurate_square _ _ _ Hu Hv) as Hsq.
  replace (value v / n * (value v / n))
    with (value v * value v / (n * n)) in Hsq by (field; lra).
  assert (Hnn : 0 < n * n) by nra.
  assert (E : value v * value v / (n * n) * (n * n) = value v * value v)
    by (field; lra).
  set (w := value (quot v)) in *. set (x2 := value v * value v) in *.
  set (q2 := x2 / (n * n)) in *.
  assert (H1 : (1 - u) * (1 - u) * q2 * (n * n) <= w * w * (n * n))
    by (apply Rmult_le_compat_r; lra).
  assert (H2 : w * w * (n * n) <= (1 + u) * (1 + u) * q2 * (n * n))
    by (apply Rmult_le_compat_r; lra).
  replace ((1 - u) * (1 - u) * q2 * (n * n))
    with ((1 - u) * (1 - u) * (q2 * (n * n))) in H1 by ring.
  replace ((1 + u) * (1 + u) * q2 * (n * n))
    with ((1 + u) * (1 + u) * (q2 * (n * n))) in H2 by ring.
  rewrite E in H1, H2. split; lra.
Qed.

(** The rounding analysis of [x / sqrt(sum of squares)].  [A] is the exact
    sum of squares, [s] the computed one, [n] the computed norm, [B] the
    exact sum of squares of the output. *)
Lemma unit_norm_analysis (u g A s n B : R) :
  0 <= u <= / 16 -> 0 <= g <= / 16 -> 0 < A ->
  Rabs (s - A) <= g * Rabs A ->
  Rabs (n - R_sqrt.sqrt s) <= u * Rabs (R_sqrt.sqrt s) ->
  (0 < n ->
   (1 - u) * (1 - u) * A <= B * (n * n) <= (1 + u) * (1 + u) * A) ->
  Rabs (R_sqrt.sqrt B - 1) <= 4 * u + 2 * g.
Proof.
  intros Hu Hg HA Hs Hn HB.
  rewrite (Rabs_pos_eq A) in Hs by lra.
  assert (Hs' : (1 - g) * A <= s <= (1 + g) * A).
  { unfold Rabs in Hs. destruct (Rcase_abs (s - A)); split; lra. }
  assert (Hspos : 0 < s) by nra.
  pose proof (sqrt_lt_R0 s Hspos) as Hr.
  pose proof (sqrt_sqrt s (Rlt_le _ _ Hspos)) as Hrr.
  set (r := R_sqrt.sqrt s) in *.
  rewrite (Rabs_pos_eq r) in Hn by lra.
  assert (Hn' : (1 - u) * r <= n <= (1 + u) * r).
  { unfold Rabs in Hn. destruct (Rcase_abs (n - r)); split; lra. }
  assert (Hnpos : 0 < n) by nra.
  specialize (HB Hnpos).
  assert (Hn2 : (1 - u) * (1 - u) * s <= n * n <= (1 + u) * (1 + u) * s).
  { rewrite <- Hrr.
    assert (0 <= (1 - u) * r) by nra.
    split.
    - replace ((1 - u) * (1 - u) * (r * r))
        with ((1 - u) * r * ((1 - u) * r)) by ring.
      apply Rmult_le_compat; lra.
    - replace ((1 + u) * (1 + u) * (r * r))
        with ((1 + u) * r * ((1 + u) * r)) by ring.
      apply Rmult_le_compat; lra. }
  assert (HB0 : 0 <= B).
  { assert (0 <= B * (n * n)) by nra.
    destruct (Rle_or_lt 0 B) as [|Hneg]; [assumption |]. exfalso. nra. }
  (* B * (1-u)^2 * (1-g) * A <= B * n^2 <= (1+u)^2 * A *)
  assert (Hup : B * ((1 - u) * (1 - u) * (1 - g)) <= (1 + u) * (1 + u)).
  { assert (B * ((1 - u) * (1 - u) * ((1 - g) * A)) <= B * (n * n)).
    { apply Rmult_le_compat_l; [exact HB0 |].
      apply Rle_trans with ((1 - u) * (1 - u) * s); [| lra].
      apply Rmult_le_compat_l; [nra | lra]. }
    assert (H2 : B * ((1 - u) * (1 - u) * (1 - g)) * A
                 <= (1 + u) * (1 + u) * A) by nra.
    apply Rmult_le_reg_r with A; assumption. }
  assert (Hlo : (1 - u) * (1 - u) <= B * ((1 + u) * (1 + u) * (1 + g))).
  { assert (B * (n * n) <= B * ((1 + u) * (1 + u) * ((1 + g) * A))).
    { apply Rmult_le_compat_l; [exact HB0 |].
      apply Rle_trans with ((1 + u) * (1 + u) * s); [lra |].
      apply Rmult_le_compat_l; [nra | lra]. }
    assert (H2 : (1 - u) * (1 - u) * A
                 <= B * ((1 + u) * (1 + u) * (1 + g)) * A) by nra.
    apply Rmult_le_reg_r with A; assumption. }
  (* B <= (1 + 4u + 2g)^2 *)
  assert (HBup : B <= (1 + 4 * u + 2 * g) * (1 + 4 * u + 2 * g)).
  { assert (Hd : 0 < (1 - u) * (1 - u) * (1 - g)) by nra.
    assert (Hk : (1 + u) * (1 + u)
                 <= (1 + 4 * u + 2 * g) * (1 + 4 * u + 2 * g)
                    * ((1 - u) * (1 - u) * (1 - g))).
    { assert (H1 : 1 + u <= (1 + 3 * u) * (1 - u)) by nra.
      assert (H2 : 1 <= (1 + 2 * g) * (1 - g)) by nra.
      assert (H3 : (1 + u) * (1 + u)
                   <= (1 + 3 * u) * (1 - u) * ((1 + 3 * u) * (1 - u)))
        by (apply Rmult_le_compat; lra).
      assert (H4 : (1 + 3 * u) * (1 + 3 * u) * (1 + 2 * g)
                   <= (1 + 4 * u + 2 * g) * (1 + 4 * u + 2 * g)) by nra.
      assert (H5 : (1 + 3 * u) * (1 - u) * ((1 + 3 * u) * (1 - u))
                   <= (1 + 3 * u) * (1 - u) * ((1 + 3 * u) * (1 - u))
                      * ((1 + 2 * g) * (1 - g))) by nra.
      apply Rle_trans with (1 := H3). apply Rle_trans with (1 := H5).
      replace ((1 + 3 * u) * (1 - u) * ((1 + 3 * u) * (1 - u))
               * ((1 + 2 * g) * (1 - g)))
        with ((1 + 3 * u) * (1 + 3 * u) * (1 + 2 * g)
              * ((1 - u) * (1 - u) * (1 - g))) by ring.
      apply Rmult_le_compat_r; lra. }
    apply Rmult_le_reg_r with ((1 - u) * (1 - u) * (1 - g)); lra. }
  assert (HBlo : (1 - 4 * u - 2 * g) * (1 - 4 * u - 2 * g) <= B).
  { assert (Hd : 0 < (1 + u) * (1 + u) * (1 + g)) by nra.
    assert (Hk : (1 - 4 * u - 2 * g) * (1 - 4 * u - 2 * g)
                 * ((1 + u) * (1 + u) * (1 + g))
                 <= (1 - u) * (1 - u)).
    { assert (H1 : (1 - 2 * u) * (1 + u) <= 1 - u) by nra.
      assert (H2 : (1 - g) * (1 + g) <= 1) by nra.
      assert (H3 : (1 - 2 * u) * (1 + u) * ((1 - 2 * u) * (1 + u))
                   <= (1 - u) * (1 - u))
        by (apply Rmult_le_compat; nra).
      assert (H4 : (1 - 4 * u - 2 * g) * (1 - 4 * u - 2 * g)
                   <= (1 - 2 * u) * (1 - 2 * u) * (1 - g)) by nra.
      apply Rle_trans with (2 := H3).
      apply Rle_trans with ((1 - 2 * u) * (1 - 2 * u) * (1 - g)
                            * ((1 + u) * (1 + u) * (1 + g)));
        [apply Rmult_le_compat_r; lra |].
      replace ((1 - 2 * u) * (1 - 2 * u) * (1 - g)
               * ((1 + u) * (1 + u) * (1 + g)))
        with ((1 - 2 * u) * (1 + u) * ((1 - 2 * u) * (1 + u))
              * ((1 - g) * (1 + g))) by ring.
      assert (0 <= (1 - 2 * u) * (1 + u) * ((1 - 2 * u) * (1 + u))) by nra.
      nra. }
    apply Rmult_le_reg_r with ((1 + u) * (1 + u) * (1 + g)); lra. }
  assert (Hhi : R_sqrt.sqrt B <= 1 + 4 * u + 2 * g).
  { rewrite <- (sqrt_square (1 + 4 * u + 2 * g)) by lra.
    apply sqrt_le_1; [exact HB0 | nra | exact HBup]. }
  assert (Hlow : 1 - 4 * u - 2 * g <= R_sqrt.sqrt B).
  { rewrite <- (sqrt_square (1 - 4 * u - 2 * g)) by lra.
    apply sqrt_le_1; [nra | exact HB0 | exact HBlo]. }
  unfold Rabs. destruct (Rcase_abs (R_sqrt.sqrt B - 1)); lra.
Qed.

(** A row divided by the square root of its computed sum of squares. *)
Lemma normalized_in_range (u g : R) (row : list float32) (s : float32) :
  0 <= u <= / 16 -> 0 <= g <= / 16 ->
  0 < sum_of_squares row ->
  in_range u g row s ->
  Rabs (l2_norm (map (fun v => div v (sqrt s)) row) - 1) <= 4 * u + 2 * g.
Proof.
  intros Hu Hg HA (Hs & Hn & Hq).
  unfold l2_norm.
  apply unit_norm_analysis
    with (A := sum_of_squares row) (s := value s) (n := value (sqrt s));
    try assumption.
  - apply Hs.
  - apply Hn.
  - intros Hnpos. apply sum_of_squares_quotients; [lra | exact Hnpos |].
    eapply Forall_impl; [| exact Hq]. intros v Hv. apply Hv.
Qed.

(** C3, as amended.  An output embedding has L2 norm 1 up to rounding as
    long as its normalisation stays in the range of float32.  Let the
    computed sum of squares of the row be finite and within relative error
    [g] of the exact one, its computed square root finite and within
    relative error [u] of the exact root, and every quotient finite and
    within relative error [u] of the exact quotient (no overflow, no
    underflow).  Then the L2 norm of the output row differs from 1 by at
    most [4 u + 2 g].  This holds for the row of the ONNX test embedding,
    whenever the mean-pooled row is not the zero vector, and for a
    placeholder embedding, whenever the draws are not all zero; the order
    in which NumPy adds is arbitrary. *)
Theorem C3_unit_norm_within_rounding_tolerance
        (np : reductions) (u g : R) :
  0 <= u <= / 16 -> 0 <= g <= / 16 ->
  (forall last_hidden_state attention_mask dim,
      0 < sum_of_squares
            (mean_pooling np last_hidden_state attention_mask dim) ->
      in_range u g
               (mean_pooling np last_hidden_state attention_mask dim)
               (add_reduce np
                  (map (fun v => mul v v)
                       (mean_pooling np last_hidden_state attention_mask
                                     dim))) ->
      Rabs (l2_norm (sentence_embedding np last_hidden_state attention_mask
                                        dim) - 1)
      <= 4 * u + 2 * g) /\
  (forall draws,
      0 < sum_of_squares draws ->
      in_range u g draws (dot np draws draws) ->
      Rabs (l2_norm (placeholder_embedding np draws) - 1) <= 4 * u + 2 * g).
Proof.
  intros Hu Hg. split.
  - intros h m dim Hpos Hrange.
    exact (normalized_in_range Hu Hg Hpos Hrange).
  - intros draws Hpos Hrange.
    exact (normalized_in_range Hu Hg Hpos Hrange).
Qed.

(** Evaluation of the real value of a float32 literal. *)
Ltac float_values :=
  cbn [value bpow sum_of_squares fold_right];
  repeat match goal with
         | |- context [Z.pow_pos ?a ?b] =>
             let v := eval vm_compute in (Z.pow_pos a b) in
             change (Z.pow_pos a b) with v
         end.

Ltac close_enough :=
  split; [reflexivity |];
  float_values; unfold Rabs;
  repeat match goal with
         | |- context [Rcase_abs ?x] => destruct (Rcase_abs x)
         end; lra.

(** The row (3, 4): its squares, their sum 25 and the norm 5 are exact,
    the quotients 3/5 and 4/5 are rounded. *)
Lemma three_four_in_range (s : float32) :
  s = S754_finite false 13107200 (-19) ->
  in_range (/ 16777216) (/ 16777216) [three; four] s.
Proof.
  intros ->.
  assert (E5 : sqrt (S754_finite false 13107200 (-19))
               = S754_finite false 10485760 (-21))
    by (vm_compute; reflexivity).
  assert (E3 : div three (S754_finite false 10485760 (-21))
               = S754_finite false 10066330 (-24))
    by (vm_compute; reflexivity).
  assert (E4 : div four (S754_finite false 10485760 (-21))
               = S754_finite false 13421773 (-24))
    by (vm_compute; reflexivity).
  assert (Er : R_sqrt.sqrt (value (S754_finite false 13107200 (-19))) = 5).
  { float_values. apply sqrt_lem_1; lra. }
  unfold in_range. rewrite E5, Er.
  change three with (S754_finite false 12582912 (-22)) in *.
  change four with (S754_finite false 8388608 (-21)) in *.
  split; [close_enough |]. split; [close_enough |].
  constructor; [rewrite E3; close_enough |].
  constructor; [rewrite E4; close_enough |]. constructor.
Qed.

(** The row (1, 1): the sum of squares 2 is exact, its square root and the
    quotients are rounded. *)
Lemma one_one_in_range (s : float32) :
  s = S754_finite false 8388608 (-22) ->
  in_range (/ 16777216) (/ 16777216) [one; one] s.
Proof.
  intros ->.
  assert (E2 : sqrt (S754_finite false 8388608 (-22))
               = S754_finite false 11863283 (-23))
    by (vm_compute; reflexivity).
  assert (E1 : div one (S754_finite false 11863283 (-23))
               = S754_finite false 11863283 (-24))
    by (vm_compute; reflexivity).
  assert (Ev : value (S754_finite false 8388608 (-22)) = 2)
    by (float_values; lra).
  unfold in_range. rewrite E2, Ev.
  change one with (S754_finite false 8388608 (-23)) in *.
  split; [close_enough |]. split.
  - split; [reflexivity |].
    pose proof (sqrt_lt_R0 2 ltac:(lra)) as Hr.
    pose proof (sqrt_sqrt 2 ltac:(lra)) as Hrr.
    set (r := R_sqrt.sqrt 2) in *.
    rewrite (Rabs_pos_eq r) by lra. float_values.
    assert (H1 : 11863283 * / 8388608 <= (1 + / 16777216) * r).
    { destruct (Rle_or_lt (11863283 * / 8388608) ((1 + / 16777216) * r))
        as [| Hlt]; [assumption |]. exfalso.
      assert ((1 + / 16777216) * r * ((1 + / 16777216) * r)
              < 11863283 * / 8388608 * (11863283 * / 8388608))
        by (apply Rmult_le_0_lt_compat; nra).
      nra. }
    assert (H2 : (1 - / 16777216) * r <= 11863283 * / 8388608).
    { destruct (Rle_or_lt ((1 - / 16777216) * r) (11863283 * / 8388608))
        as [| Hlt]; [assumption |]. exfalso.
      assert (11863283 * / 8388608 * (11863283 * / 8388608)
              < (1 - / 16777216) * r * ((1 - / 16777216) * r))
        by (apply Rmult_le_0_lt_compat; nra).
      nra. }
    unfold Rabs. destruct (Rcase_abs (11863283 * / 8388608 - r)); lra.
  - constructor; [rewrite E1; close_enough |].
    constructor; [rewrite E1; close_enough |]. constructor.
Qed.

(** C3 on two rows: (3, 4), the pooled row of a sequence whose second
    token is masked, and (1, 1), a vector of two draws. *)
Lemma C3_witness_rounded_rows :
  Rabs (l2_norm (sentence_embedding short_rows
                   [[three; four]; [one; one]] [1; 0]%Z 2) - 1)
  <= 4 * / 16777216 + 2 * / 16777216 /\
  Rabs (l2_norm (placeholder_embedding short_rows [one; one]) - 1)
  <= 4 * / 16777216 + 2 * / 16777216.
Proof.
  assert (Hu : 0 <= / 16777216 <= / 16) by lra.
  destruct (@C3_unit_norm_within_rounding_tolerance
              short_rows (/ 16777216) (/ 16777216) Hu Hu)
    as [Honnx Hplaceholder].
  split.
  - apply Honnx.
    + change (mean_pooling short_rows [[three; four]; [one; one]]
                           [1; 0]%Z 2) with [three; four].
      change three with (S754_finite false 12582912 (-22)).
      change four with (S754_finite false 8388608 (-21)).
      float_values. lra.
    + change (mean_pooling short_rows [[three; four]; [one; one]]
                           [1; 0]%Z 2) with [three; four].
      apply three_four_in_range. vm_compute. reflexivity.
  - apply Hplaceholder.
    + change one with (S754_finite false 8388608 (-23)).
      float_values. lra.
    + apply one_one_in_range. vm_compute. reflexivity.
Defined.

(** C3, as stated, fails in float32.  A one-token sequence with hidden
    state (2^70, 2^70) has a mean-pooled row that is not zero; its squares
    overflow, the computed norm is infinite and the output row is (0, 0), of
    norm 0.  With hidden state (2^-80, 2^-80) the squares underflow, the
    computed norm is 0 and the output row is (inf, inf).  With hidden state
    (3 * 2^-75, 4 * 2^-75) the squares are subnormal, and the output row is
    finite with a norm above 1.02. *)
Lemma C3_counterexample_float32_range :
  (mean_pooling short_rows [[two_pow 70; two_pow 70]] [1%Z] 2
   = [two_pow 70; two_pow 70] /\
   0 < sum_of_squares [two_pow 70; two_pow 70] /\
   sentence_embedding short_rows [[two_pow 70; two_pow 70]] [1%Z] 2
   = [zero; zero] /\
   l2_norm [zero; zero] = 0) /\
  (mean_pooling short_rows [[two_pow (-80); two_pow (-80)]] [1%Z] 2
   = [two_pow (-80); two_pow (-80)] /\
   0 < sum_of_squares [two_pow (-80); two_pow (-80)] /\
   sentence_embedding short_rows [[two_pow (-80); two_pow (-80)]] [1%Z] 2
   = [inf; inf]) /\
  (mean_pooling short_rows [[round 3 (-75); round 4 (-75)]] [1%Z] 2
   = [round 3 (-75); round 4 (-75)] /\
   0 < sum_of_squares [round 3 (-75); round 4 (-75)] /\
   sentence_embedding short_rows [[round 3 (-75); round 4 (-75)]] [1%Z] 2
   = [S754_finite false 10273904 (-24); S754_finite false 13698539 (-24)] /\
   102 / 100
   < l2_norm [S754_finite false 10273904 (-24);
              S754_finite false 13698539 (-24)]).
Proof.
  split; [| split].
  - split; [vm_compute; reflexivity |]. split; [| split].
    + change (two_pow 70) with (S754_finite false 8388608 47).
      float_values. lra.
    + vm_compute. reflexivity.
    + unfold l2_norm. cbn [sum_of_squares fold_right value zero].
      replace (0 * 0 + (0 * 0 + 0)) with 0 by ring. apply sqrt_0.
  - split; [vm_compute; reflexivity |]. split.
    + change (two_pow (-80)) with (S754_finite false 8388608 (-103)).
      float_values.
      assert (0 < / 10141204801825835211973625643008) by
          (apply Rinv_0_lt_compat; lra).
      nra.
    + vm_compute. reflexivity.
  - split; [vm_compute; reflexivity |]. split; [| split].
    + change (round 3 (-75)) with (S754_finite false 12582912 (-97)).
      change (round 4 (-75)) with (S754_finite false 8388608 (-96)).
      float_values.
      assert (0 < / 158456325028528675187087900672) by
          (apply Rinv_0_lt_compat; lra).
      assert (0 < / 79228162514264337593543950336) by
          (apply Rinv_0_lt_compat; lra).
      nra.
    + vm_compute. reflexivity.
    + unfold l2_norm.
      rewrite <- (sqrt_square (102 / 100)) by lra.
      apply sqrt_lt_1; [lra | float_values; lra | float_values; lra].
Qed.

End Float32Facts.

(** ** Placeholder embeddings (generate_embeddings_simple.py) *)

Section PlaceholderFacts.

Import NpFloat Numpy Placeholder.
Import String.
Local Open Scope string_scope.

Example hash_first_scam_pattern_seed0 :
  py_hash secret_seed0 (nth 0 scam_patterns "") = 7354483847907928513%Z /\
  seed_of secret_seed0 (nth 0 scam_patterns "") = 216426945%Z.
Proof. split; vm_compute; reflexivity. Qed.

Example hash_first_scam_pattern_seed1 :
  py_hash secret_seed1 (nth 0 scam_patterns "") = (-1758679924533923793)%Z /\
  seed_of secret_seed1 (nth 0 scam_patterns "") = 814444591%Z.
Proof. split; vm_compute; reflexivity. Qed.

Example hash_abc :
  py_hash secret_seed0 "abc" = (-4594863902769663758)%Z /\
  py_hash secret_seed1 "abc" = (-4667308735975688587)%Z.
Proof. split; vm_compute; reflexivity. Qed.

(** C10.  The seed of a pattern depends on the interpreter's hash key, not
    on the pattern text only.  For the first scam pattern, a run with
    PYTHONHASHSEED=0 seeds the generator with 216426945, a run with
    PYTHONHASHSEED=1 with 814444591, so the first row written to
    scam_embeddings.npy is the normalisation of a different stream of draws
    in the two runs; the seeds of the two runs differ for every pattern of
    both lists. *)
Theorem C10_seed_depends_on_hash_key (sn : Z -> nat -> R) :
  seed_of secret_seed0 (nth 0 scam_patterns "") = 216426945%Z /\
  seed_of secret_seed1 (nth 0 scam_patterns "") = 814444591%Z /\
  (forall k, item1 (random_vector sn secret_seed0 (nth 0 scam_patterns "")) k
             = Fin (sn 216426945%Z k)) /\
  (forall k, item1 (random_vector sn secret_seed1 (nth 0 scam_patterns "")) k
             = Fin (sn 814444591%Z k)) /\
  (forall k,
      item2 (scam_embeddings sn secret_seed0) 0 k =
      fdiv (Fin (sn 216426945%Z k))
           (linalg_norm (Array1 EMBEDDING_DIM
                                (fun j => Fin (sn 216426945%Z j))))) /\
  (forall k,
      item2 (scam_embeddings sn secret_seed1) 0 k =
      fdiv (Fin (sn 814444591%Z k))
           (linalg_norm (Array1 EMBEDDING_DIM
                                (fun j => Fin (sn 814444591%Z j))))) /\
  forallb (fun pattern =>
             negb (Z.eqb (seed_of secret_seed0 pattern)
                         (seed_of secret_seed1 pattern)))
          (scam_patterns ++ legitimate_patterns) = true.
Proof.
  assert (H0 : seed_of secret_seed0 (nth 0 scam_patterns "") = 216426945%Z)
    by (vm_compute; reflexivity).
  assert (H1 : seed_of secret_seed1 (nth 0 scam_patterns "") = 814444591%Z)
    by (vm_compute; reflexivity).
  split; [exact H0 |]. split; [exact H1 |].
  split; [intros k; unfold random_vector; cbn [item1]; rewrite H0;
          reflexivity |].
  split; [intros k; unfold random_vector; cbn [item1]; rewrite H1;
          reflexivity |].
  split.
  { intros k.
    change (item2 (scam_embeddings sn secret_seed0) 0 k)
      with (item1 (placeholder_embedding sn secret_seed0
                                         (nth 0 scam_patterns "")) k).
    unfold placeholder_embedding, divide_scalar, random_vector.
    cbn [item1]. rewrite H0. reflexivity. }
  split.
  { intros k.
    change (item2 (scam_embeddings sn secret_seed1) 0 k)
      with (item1 (placeholder_embedding sn secret_seed1
                                         (nth 0 scam_patterns "")) k).
    unfold placeholder_embedding, divide_scalar, random_vector.
    cbn [item1]. rewrite H1. reflexivity. }
  vm_compute. reflexivity.
Qed.

End PlaceholderFacts.

(** ** Further properties of the mean pooling (convert_minilm_to_onnx.py) *)

Section PoolingProperties.

Import NpFloat Numpy OnnxPooling PoolingProps Inputs.
Local Open Scope R_scope.

Lemma Rsum_single (n j0 : nat) (f : nat -> R) :
  (j0 < n)%nat ->
  (forall j, (j < n)%nat -> j <> j0 -> f j = 0) ->
  Rsum n f = f j0.
Proof.
  induction n as [| n IH]; intros Hj H; [lia |]. simpl.
  destruct (Nat.eq_dec j0 n) as [-> | Hne].
  - rewrite Rsum_zero by (intros j Hlt; apply H; lia). ring.
  - rewrite IH by (try lia; intros j Hlt Hd; apply H; lia).
    rewrite (H n) by lia. ring.
Qed.

Lemma spec_mean_finite (h : array3 fval) (m : array2 Z) (i k : nat) :
  (forall j, (j < dim1 h)%nat -> is_finite (item3 h i j k) = true) ->
  spec_mean h m i k =
  Fin (Rsum (dim1 h) (fun j => to_R (item3 h i j k) * IZR (item2 m i j)) /
       Rmax (Rsum (dim1 h) (fun j => IZR (item2 m i j))) 1e-9).
Proof.
  intros Hfin. unfold spec_mean, spec_masked_sum, spec_mask_sum.
  rewrite (@reduce_add_ext (dim1 h) _
             (fun j => Fin (to_R (item3 h i j k) * IZR (item2 m i j)))).
  - unfold spec_mask. rewrite !reduce_add_fin, fmaximum_fin.
    apply fdiv_fin.
    match goal with |- Rmax ?a ?b <> 0 => pose proof (Rmax_r a b) end. lra.
  - intros j Hj. unfold spec_mask.
    rewrite (@is_finite_to_R _ (Hfin j Hj)) at 1. reflexivity.
Qed.

(** The normalised row is determined by the pooled row. *)
Lemma normalized_rows_agree (e e' out out' : array2 fval) (i : nat) :
  normalize e = Some out -> normalize e' = Some out' ->
  cols e' = cols e -> (i < rows e)%nat -> (i < rows e')%nat ->
  (forall k, (k < cols e)%nat -> item2 e' i k = item2 e i k) ->
  forall k, (k < cols e)%nat -> item2 out' i k = item2 out i k.
Proof.
  intros Hout Hout' Hc Hi Hi' Hrow k Hk.
  destruct (normalize_spec e) as (o & Ho & _ & _ & Hitem).
  destruct (normalize_spec e') as (o' & Ho' & _ & _ & Hitem').
  rewrite Hout in Ho. rewrite Hout' in Ho'.
  inversion Ho. inversion Ho'. subst o o'.
  rewrite Hitem by assumption.
  rewrite Hitem' by (rewrite ?Hc; assumption).
  rewrite Hrow by assumption. f_equal.
  apply row_norm_ext; [exact Hc | exact Hrow].
Qed.

(** Padding does not matter: two finite hidden-state tensors that agree on
    the positions of batch row [i] whose mask is not zero have the same
    pooled row and the same sentence embedding in row [i]. *)
Theorem masked_positions_do_not_matter
        (h h' : array3 fval) (m : array2 Z) (i : nat) :
  matching h m -> matching h' m -> dim2 h' = dim2 h ->
  (i < dim0 h)%nat ->
  finite_row h i -> finite_row h' i ->
  (forall j k, (j < dim1 h)%nat -> (k < dim2 h)%nat ->
               item2 m i j <> 0%Z -> item3 h' i j k = item3 h i j k) ->
  exists e e' out out',
    mean_pooling h m = Some e /\ mean_pooling h' m = Some e' /\
    sentence_embedding h m = Some out /\
    sentence_embedding h' m = Some out' /\
    forall k, (k < dim2 h)%nat ->
              item2 e' i k = item2 e i k /\ item2 out' i k = item2 out i k.
Proof.
  intros Hm Hm' Hd2 Hi Hf Hf' Hagree.
  assert (Hd0 : dim0 h' = dim0 h) by (destruct Hm, Hm'; congruence).
  assert (Hd1 : dim1 h' = dim1 h) by (destruct Hm, Hm'; congruence).
  destruct (mean_pooling_spec Hm) as (e & He & Hr & Hc & Hitem).
  destruct (mean_pooling_spec Hm') as (e' & He' & Hr' & Hc' & Hitem').
  destruct (normalize_spec e) as (out & Hout & _).
  destruct (normalize_spec e') as (out' & Hout' & _).
  exists e, e', out, out'. unfold sentence_embedding. rewrite He, He'.
  split; [reflexivity |]. split; [reflexivity |].
  split; [exact Hout |]. split; [exact Hout' |].
  assert (Hrow : forall k, (k < cols e)%nat -> item2 e' i k = item2 e i k).
  { intros k Hk. rewrite Hc in Hk.
    rewrite Hitem by assumption.
    rewrite Hitem' by (rewrite ?Hd0, ?Hd2; assumption).
    rewrite (@spec_mean_finite h) by (intros j Hj; apply Hf; assumption).
    rewrite (@spec_mean_finite h')
      by (intros j Hj; apply Hf'; rewrite ?Hd2; assumption).
    rewrite Hd1. do 2 f_equal. apply Rsum_ext_R. intros j Hj.
    destruct (Z.eq_dec (item2 m i j) 0) as [-> | Hnz].
    - simpl. ring.
    - rewrite Hagree by assumption. reflexivity. }
  intros k Hk. split; [apply Hrow; rewrite Hc; exact Hk |].
  apply (@normalized_rows_agree e e' out out' i Hout Hout').
  - congruence.
  - rewrite Hr. exact Hi.
  - rewrite Hr', Hd0. exact Hi.
  - exact Hrow.
  - rewrite Hc. exact Hk.
Qed.

Ltac below2 :=
  match goal with
  | |- forall j : nat, _ =>
      let j := fresh "j" in
      intros j; destruct j as [| [| j]]; try (intros; lia); below2
  | |- _ => intros; try reflexivity; try congruence
  end.

Lemma masked_positions_witness :
  (matching hidden22 mask_first_only /\
   matching hidden22_other_padding mask_first_only /\
   dim2 hidden22_other_padding = dim2 hidden22 /\
   (0 < dim0 hidden22)%nat /\
   finite_row hidden22 0 /\ finite_row hidden22_other_padding 0 /\
   (forall j k, (j < dim1 hidden22)%nat -> (k < dim2 hidden22)%nat ->
                item2 mask_first_only 0 j <> 0%Z ->
                item3 hidden22_other_padding 0 j k = item3 hidden22 0 j k))
  /\
  exists e e' out out',
    mean_pooling hidden22 mask_first_only = Some e /\
    mean_pooling hidden22_other_padding mask_first_only = Some e' /\
    sentence_embedding hidden22 mask_first_only = Some out /\
    sentence_embedding hidden22_other_padding mask_first_only = Some out' /\
    forall k, (k < dim2 hidden22)%nat ->
              item2 e' 0 k = item2 e 0 k /\ item2 out' 0 k = item2 out 0 k.
Proof.
  assert (H1 : matching hidden22 mask_first_only) by (split; reflexivity).
  assert (H2 : matching hidden22_other_padding mask_first_only)
    by (split; reflexivity).
  assert (H3 : dim2 hidden22_other_padding = dim2 hidden22) by reflexivity.
  assert (H4 : (0 < dim0 hidden22)%nat) by (cbn; lia).
  assert (H5 : finite_row hidden22 0) by (unfold finite_row; cbn; below2).
  assert (H6 : finite_row hidden22_other_padding 0)
    by (unfold finite_row; cbn; below2).
  assert (H7 : forall j k, (j < dim1 hidden22)%nat ->
                           (k < dim2 hidden22)%nat ->
                           item2 mask_first_only 0 j <> 0%Z ->
                           item3 hidden22_other_padding 0 j k =
                           item3 hidden22 0 j k)
    by (cbn; below2).
  split; [repeat split; assumption |].
  exact (masked_positions_do_not_matter H1 H2 H3 H4 H5 H6 H7).
Defined.

Lemma unmasked_succ (m : array2 Z) (i n : nat) :
  unmasked m i (S n) =
  (unmasked m i n + if Z.eqb (item2 m i n) 1 then 1 else 0)%nat.
Proof.
  unfold unmasked. rewrite seq_S, filter_app, length_app. simpl.
  destruct (Z.eqb (item2 m i n) 1); reflexivity.
Qed.

(** The sum of a binary mask row counts its ones. *)
Lemma mask_sum_counts (m : array2 Z) (i n : nat) :
  binary_row m i n ->
  Rsum n (fun j => IZR (item2 m i j)) = INR (unmasked m i n).
Proof.
  induction n as [| n IH]; intros Hb.
  - reflexivity.
  - simpl Rsum. rewrite unmasked_succ, plus_INR.
    rewrite IH by (intros j Hj; apply Hb; lia).
    destruct (Hb n (Nat.lt_succ_diag_r n)) as [E | E]; rewrite E; simpl; ring.
Qed.

(** For a binary mask with at least one unmasked position, the pooled row
    is the sum of the unmasked token vectors divided by their number. *)
Theorem pooled_row_is_mean_of_unmasked_tokens
        (h : array3 fval) (m : array2 Z) (i : nat) :
  matching h m -> (i < dim0 h)%nat ->
  finite_row h i ->
  binary_row m i (dim1 h) ->
  (0 < unmasked m i (dim1 h))%nat ->
  exists e,
    mean_pooling h m = Some e /\
    forall k, (k < dim2 h)%nat ->
              item2 e i k =
              Fin (unmasked_sum h m i k / INR (unmasked m i (dim1 h))).
Proof.
  intros Hm Hi Hf Hb Hpos.
  destruct (mean_pooling_spec Hm) as (e & He & _ & _ & Hitem).
  exists e. split; [exact He |]. intros k Hk.
  rewrite Hitem by assumption.
  rewrite spec_mean_finite by (intros j Hj; apply Hf; assumption).
  rewrite mask_sum_counts by exact Hb.
  assert (Hc : 1 <= INR (unmasked m i (dim1 h))).
  { change 1 with (INR 1). apply le_INR. lia. }
  rewrite Rmax_left by lra. do 2 f_equal.
  unfold unmasked_sum. apply Rsum_ext_R. intros j Hj.
  destruct (Hb j Hj) as [E | E]; rewrite E; simpl; ring.
Qed.

Lemma mean_of_unmasked_witness :
  (matching hidden22 mask_all_ones /\ (1 < dim0 hidden22)%nat /\
   finite_row hidden22 1 /\
   binary_row mask_all_ones 1 (dim1 hidden22) /\
   (0 < unmasked mask_all_ones 1 (dim1 hidden22))%nat) /\
  exists e,
    mean_pooling hidden22 mask_all_ones = Some e /\
    forall k, (k < dim2 hidden22)%nat ->
              item2 e 1 k =
              Fin (unmasked_sum hidden22 mask_all_ones 1 k /
                   INR (unmasked mask_all_ones 1 (dim1 hidden22))).
Proof.
  assert (H1 : matching hidden22 mask_all_ones) by (split; reflexivity).
  assert (H2 : (1 < dim0 hidden22)%nat) by (cbn; lia).
  assert (H3 : finite_row hidden22 1) by (unfold finite_row; cbn; below2).
  assert (H4 : binary_row mask_all_ones 1 (dim1 hidden22)).
  { unfold binary_row. cbn. intros j Hj.
    destruct j as [| [| j]]; [right | right | lia]; reflexivity. }
  assert (H5 : (0 < unmasked mask_all_ones 1 (dim1 hidden22))%nat)
    by (cbn; lia).
  split; [repeat split; assumption |].
  exact (pooled_row_is_mean_of_unmasked_tokens H1 H2 H3 H4 H5).
Defined.

(** A sequence with exactly one unmasked position pools to the vector of
    that token, and its embedding is that vector divided by its norm. *)
Theorem single_unmasked_token_is_returned
        (h : array3 fval) (m : array2 Z) (i j0 : nat) :
  matching h m -> (i < dim0 h)%nat -> (j0 < dim1 h)%nat ->
  finite_row h i ->
  item2 m i j0 = 1%Z ->
  (forall j, (j < dim1 h)%nat -> j <> j0 -> item2 m i j = 0%Z) ->
  exists e out,
    mean_pooling h m = Some e /\
    sentence_embedding h m = Some out /\
    forall k, (k < dim2 h)%nat ->
              item2 e i k = item3 h i j0 k /\
              item2 out i k = fdiv (item3 h i j0 k) (token_norm h i j0).
Proof.
  intros Hm Hi Hj0 Hf Hone Hzero.
  destruct (mean_pooling_spec Hm) as (e & He & Hr & Hc & Hitem).
  destruct (normalize_spec e) as (out & Hout & _ & _ & Hoitem).
  exists e, out. unfold sentence_embedding. rewrite He.
  split; [reflexivity |]. split; [exact Hout |].
  assert (Hrow : forall k, (k < dim2 h)%nat -> item2 e i k = item3 h i j0 k).
  { intros k Hk. rewrite Hitem by assumption.
    rewrite spec_mean_finite by (intros j Hj; apply Hf; assumption).
    rewrite (@Rsum_single (dim1 h) j0
               (fun j => to_R (item3 h i j k) * IZR (item2 m i j)))
      by (try assumption; intros j Hj Hne; rewrite Hzero by assumption;
          simpl; ring).
    rewrite (@Rsum_single (dim1 h) j0 (fun j => IZR (item2 m i j)))
      by (try assumption; intros j Hj Hne; rewrite Hzero by assumption;
          reflexivity).
    rewrite Hone. rewrite Rmax_left by lra.
    rewrite (@is_finite_to_R (item3 h i j0 k)) at 2
      by (apply Hf; assumption).
    f_equal. field. }
  intros k Hk. split; [apply Hrow; exact Hk |].
  rewrite Hoitem by (rewrite ?Hr, ?Hc; assumption).
  rewrite Hrow by exact Hk. f_equal.
  unfold token_norm. apply row_norm_ext; assumption.
Qed.

Lemma single_unmasked_witness :
  (matching hidden22 mask_first_only /\ (0 < dim0 hidden22)%nat /\
   (0 < dim1 hidden22)%nat /\ finite_row hidden22 0 /\
   item2 mask_first_only 0 0 = 1%Z /\
   (forall j, (j < dim1 hidden22)%nat -> j <> 0%nat ->
              item2 mask_first_only 0 j = 0%Z)) /\
  exists e out,
    mean_pooling hidden22 mask_first_only = Some e /\
    sentence_embedding hidden22 mask_first_only = Some out /\
    forall k, (k < dim2 hidden22)%nat ->
              item2 e 0 k = item3 hidden22 0 0 k /\
              item2 out 0 k =
              fdiv (item3 hidden22 0 0 k) (token_norm hidden22 0 0).
Proof.
  assert (H1 : matching hidden22 mask_first_only) by (split; reflexivity).
  assert (H2 : (0 < dim0 hidden22)%nat) by (cbn; lia).
  assert (H3 : (0 < dim1 hidden22)%nat) by (cbn; lia).
  assert (H4 : finite_row hidden22 0) by (unfold finite_row; cbn; below2).
  assert (H5 : item2 mask_first_only 0 0 = 1%Z) by reflexivity.
  assert (H6 : forall j, (j < dim1 hidden22)%nat -> j <> 0%nat ->
                         item2 mask_first_only 0 j = 0%Z)
    by (cbn; below2).
  split; [repeat split; assumption |].
  exact (single_unmasked_token_is_returned H1 H2 H3 H4 H5 H6).
Defined.

Lemma broadcastable_success (h : array3 fval) (m : array2 Z) :
  broadcastable h m = true ->
  exists out, sentence_embedding h m = Some out /\
              rows out = dim0 h /\ cols out = dim2 h.
Proof.
  destruct h as [d0 d1 d2 g], m as [r c f].
  unfold broadcastable, sentence_embedding, mean_pooling,
    input_mask_expanded, broadcast_to, shape3, expand_dims.
  cbn [rows cols dim0 dim1 dim2 item2 item3].
  change (Nat.eqb 1 1) with true.
  rewrite (orb_true_r (Nat.eqb 1 d2)), andb_true_r.
  intros ->.
  unfold sum_embeddings, multiply3, binop3, astype_float32.
  cbn [dim0 dim1 dim2 item3]. rewrite !bdim_same.
  unfold divide2, binop2, sum_mask, clip_min, sum_axis1.
  cbn [rows cols dim0 dim1 dim2 item2 item3]. rewrite !bdim_same.
  unfold normalize, norm, divide2, binop2, linalg_norm_axis1.
  cbn [rows cols item2]. rewrite bdim_same, bdim_one_r.
  eexists. split; [reflexivity |]. split; reflexivity.
Qed.

Lemma not_broadcastable_failure (h : array3 fval) (m : array2 Z) :
  broadcastable h m = false ->
  input_mask_expanded h m = None /\ mean_pooling h m = None /\
  sentence_embedding h m = None.
Proof.
  destruct h as [d0 d1 d2 g], m as [r c f].
  unfold broadcastable, sentence_embedding, mean_pooling,
    input_mask_expanded, broadcast_to, shape3, expand_dims.
  cbn [rows cols dim0 dim1 dim2 item2 item3].
  change (Nat.eqb 1 1) with true.
  rewrite (orb_true_r (Nat.eqb 1 d2)), andb_true_r.
  intros ->. repeat split.
Qed.

(** The pooling succeeds exactly on the shapes NumPy broadcasts, and then
    returns an array of shape [batch, hidden_dim]; on every other shape the
    expansion of line 181 raises and nothing is computed. *)
Theorem sentence_embedding_succeeds_iff_broadcastable
        (h : array3 fval) (m : array2 Z) :
  (broadcastable h m = true ->
   exists out, sentence_embedding h m = Some out /\
               rows out = dim0 h /\ cols out = dim2 h) /\
  (broadcastable h m = false ->
   input_mask_expanded h m = None /\ mean_pooling h m = None /\
   sentence_embedding h m = None).
Proof.
  split; [apply broadcastable_success | apply not_broadcastable_failure].
Qed.

Lemma broadcastable_witness :
  (broadcastable hidden22 mask_one_row = true /\
   broadcastable hidden22 mask_too_long = false) /\
  (exists out, sentence_embedding hidden22 mask_one_row = Some out /\
               rows out = 2%nat /\ cols out = 2%nat) /\
  sentence_embedding hidden22 mask_too_long = None.
Proof.
  split; [split; reflexivity |]. split.
  - exact (proj1 (sentence_embedding_succeeds_iff_broadcastable
                    hidden22 mask_one_row) eq_refl).
  - exact (proj2 (proj2 (proj2
             (sentence_embedding_succeeds_iff_broadcastable
                hidden22 mask_too_long) eq_refl))).
Defined.

(** A mask of one row is applied to every sequence of the batch: the result
    is that of the mask with the row repeated for each sequence. *)
Theorem one_row_mask_applies_to_every_sequence
        (h : array3 fval) (m : array2 Z) :
  rows m = 1%nat -> cols m = dim1 h ->
  exists e e' out out',
    mean_pooling h m = Some e /\
    mean_pooling h (repeat_row (dim0 h) m) = Some e' /\
    sentence_embedding h m = Some out /\
    sentence_embedding h (repeat_row (dim0 h) m) = Some out' /\
    forall i k, (i < dim0 h)%nat -> (k < dim2 h)%nat ->
                item2 e i k = item2 e' i k /\ item2 out i k = item2 out' i k.
Proof.
  intros Hr Hc.
  assert (Hm' : matching h (repeat_row (dim0 h) m))
    by (split; [| exact Hc]; reflexivity).
  destruct (mean_pooling_spec Hm') as (e' & He' & Hr' & Hc' & Hitem').
  assert (He : exists e, mean_pooling h m = Some e /\
                         rows e = dim0 h /\ cols e = dim2 h /\
                         forall i k, (i < dim0 h)%nat -> (k < dim2 h)%nat ->
                                     item2 e i k = item2 e' i k).
  { destruct h as [d0 d1 d2 g], m as [r c f]. cbn in Hr, Hc. subst r c.
    unfold mean_pooling, input_mask_expanded, broadcast_to, shape3,
      expand_dims.
    cbn [rows cols dim0 dim1 dim2 item2 item3].
    rewrite !Nat.eqb_refl, !orb_true_r. cbn [andb orb].
    unfold sum_embeddings, multiply3, binop3, astype_float32.
    cbn [dim0 dim1 dim2 item3]. rewrite !bdim_same.
    unfold divide2, binop2, sum_mask, clip_min, sum_axis1.
    cbn [rows cols dim0 dim1 dim2 item2 item3]. rewrite !bdim_same.
    eexists. split; [reflexivity |]. cbn [rows cols item2].
    split; [reflexivity |]. split; [reflexivity |].
    intros i k Hi Hk. cbn in Hi, Hk.
    rewrite (Hitem' i k Hi Hk).
    unfold spec_mean, spec_masked_sum, spec_mask_sum, spec_mask, repeat_row.
    cbn [dim1 item2 item3]. rewrite !(bidx_lt Hi), !(bidx_lt Hk).
    f_equal.
    - apply reduce_add_ext. intros j Hj. rewrite !(bidx_lt Hj). reflexivity.
    - f_equal. apply reduce_add_ext. intros j Hj. rewrite (bidx_lt Hj).
      reflexivity. }
  destruct He as (e & He & Her & Hec & Hrow).
  destruct (normalize_spec e) as (out & Hout & _).
  destruct (normalize_spec e') as (out' & Hout' & _).
  exists e, e', out, out'. unfold sentence_embedding. rewrite He, He'.
  split; [reflexivity |]. split; [reflexivity |].
  split; [exact Hout |]. split; [exact Hout' |].
  intros i k Hi Hk. split; [apply Hrow; assumption |].
  apply (@normalized_rows_agree e' e out' out i Hout' Hout).
  - congruence.
  - rewrite Hr'. exact Hi.
  - rewrite Her. exact Hi.
  - intros k' Hk'. apply Hrow; [exact Hi | rewrite <- Hc'; exact Hk'].
  - rewrite Hc'. exact Hk.
Qed.

Lemma one_row_mask_witness :
  (rows mask_one_row = 1%nat /\ cols mask_one_row = dim1 hidden22) /\
  exists e e' out out',
    mean_pooling hidden22 mask_one_row = Some e /\
    mean_pooling hidden22 (repeat_row (dim0 hidden22) mask_one_row)
      = Some e' /\
    sentence_embedding hidden22 mask_one_row = Some out /\
    sentence_embedding hidden22 (repeat_row (dim0 hidden22) mask_one_row)
      = Some out' /\
    forall i k, (i < dim0 hidden22)%nat -> (k < dim2 hidden22)%nat ->
                item2 e i k = item2 e' i k /\ item2 out i k = item2 out' i k.
Proof.
  split; [split; reflexivity |].
  exact (@one_row_mask_applies_to_every_sequence hidden22 mask_one_row
           eq_refl eq_refl).
Defined.

End PoolingProperties.

(** ** Further properties of the classification
    (convert_minilm_to_tflite*.py) *)

Section ClassifierProperties.

Import NpFloat Numpy Classifier ClassifierProps Inputs.
Local Open Scope R_scope.

(** What a score says about the shapes and about the similarities. *)
Lemma max_similarity_inv (query refs : array2 R) (v : R) :
  max_similarity query refs = Some v ->
  cols refs = cols query /\ is_max_similarity query refs v.
Proof.
  unfold max_similarity, cosine_similarity.
  destruct (check_array query && check_array refs &&
            Nat.eqb (cols query) (cols refs)) eqn:E; [| discriminate].
  intros H. apply andb_prop in E. destruct E as [_ E].
  apply Nat.eqb_eq in E. split; [congruence |].
  apply max_of_similarity_matrix. exact H.
Qed.

Lemma classify_some (query scam legit : array2 R) :
  (0 < rows query)%nat -> (0 < cols query)%nat ->
  (0 < rows scam)%nat -> cols scam = cols query ->
  (0 < rows legit)%nat -> cols legit = cols query ->
  exists s l,
    max_similarity query scam = Some s /\
    max_similarity query legit = Some l /\
    classify query scam legit = Some (Result s l (classification s l)).
Proof.
  intros Hq Hc Hs Hsc Hl Hlc. rewrite classify_by_scores.
  unfold max_similarity.
  rewrite (@cosine_similarity_some query scam Hq Hs Hc Hsc).
  rewrite (@cosine_similarity_some query legit Hq Hl Hc Hlc).
  destruct (@ndarray_max_some (Array2 (rows query) (rows scam)
                                      (cos_sim query scam)) Hq Hs)
    as (s & Es).
  destruct (@ndarray_max_some (Array2 (rows query) (rows legit)
                                      (cos_sim query legit)) Hq Hl)
    as (l & El).
  exists s, l. rewrite Es, El. repeat split.
Qed.

Lemma cos_sim_zero_query (query refs : array2 R) (i j : nat) :
  all_zero query -> (i < rows query)%nat -> cos_sim query refs i j = 0.
Proof.
  intros Hz Hi. unfold cos_sim. apply Rsum_zero. intros k Hk.
  unfold normalize at 1. cbn [item2]. rewrite (Hz i k Hi Hk).
  unfold Rdiv. ring.
Qed.

(** A zero query has similarity 0 to everything, so it is classified
    LEGITIMATE with both scores 0. *)
Theorem zero_query_is_legitimate (query scam legit : array2 R) :
  (0 < rows query)%nat -> (0 < cols query)%nat ->
  (0 < rows scam)%nat -> cols scam = cols query ->
  (0 < rows legit)%nat -> cols legit = cols query ->
  all_zero query ->
  classify query scam legit = Some (Result 0 0 LEGITIMATE).
Proof.
  intros Hq Hc Hs Hsc Hl Hlc Hz.
  destruct (@classify_some query scam legit Hq Hc Hs Hsc Hl Hlc)
    as (s & l & Es & El & ->).
  destruct (max_similarity_inv _ _ Es) as (_ & (i & j & Hi & _ & ->) & _).
  destruct (max_similarity_inv _ _ El) as (_ & (i' & j' & Hi' & _ & ->) & _).
  rewrite !cos_sim_zero_query by assumption.
  unfold classification. destruct (Rgt_dec 0 0); [lra | reflexivity].
Qed.

Lemma zero_query_witness :
  ((0 < rows zero_query2)%nat /\ (0 < cols zero_query2)%nat /\
   (0 < rows scam2)%nat /\ cols scam2 = cols zero_query2 /\
   (0 < rows legit2)%nat /\ cols legit2 = cols zero_query2 /\
   all_zero zero_query2) /\
  classify zero_query2 scam2 legit2 = Some (Result 0 0 LEGITIMATE).
Proof.
  assert (Hz : all_zero zero_query2).
  { intros i k Hi Hk. cbn in Hi, Hk.
    destruct i as [| i]; [| lia].
    destruct k as [| [| k]]; [reflexivity | reflexivity | lia]. }
  split; [cbn; repeat split; try lia; exact Hz |].
  apply zero_query_is_legitimate; cbn; try lia. exact Hz.
Defined.

Lemma max_similarity_some (query refs : array2 R) :
  (0 < rows query)%nat -> (0 < cols query)%nat ->
  (0 < rows refs)%nat -> cols refs = cols query ->
  exists v, max_similarity query refs = Some v.
Proof.
  intros Hq Hc Hr Hrc. unfold max_similarity.
  rewrite (@cosine_similarity_some query refs Hq Hr Hc Hrc).
  apply ndarray_max_some; assumption.
Qed.

Lemma check_array_true (X : array2 R) :
  check_array X = true <-> (0 < rows X)%nat /\ (0 < cols X)%nat.
Proof.
  unfold check_array. rewrite andb_true_iff, !negb_true_iff, !Nat.eqb_neq.
  lia.
Qed.

Lemma max_similarity_shapes (query refs : array2 R) (v : R) :
  max_similarity query refs = Some v ->
  (0 < rows query)%nat /\ (0 < cols query)%nat /\
  (0 < rows refs)%nat /\ cols refs = cols query.
Proof.
  unfold max_similarity, cosine_similarity.
  destruct (check_array query) eqn:Eq; [| discriminate].
  destruct (check_array refs) eqn:Er; [| discriminate].
  destruct (Nat.eqb (cols query) (cols refs)) eqn:Ec; [| discriminate].
  intros _. apply check_array_true in Eq, Er. apply Nat.eqb_eq in Ec.
  intuition congruence.
Qed.

Lemma classify_fails_iff_ill_shaped_aux (query scam legit : array2 R) :
  classify query scam legit = None <-> well_shaped query scam legit = false.
Proof.
  unfold well_shaped. split.
  - intros Hnone.
    destruct (check_array query) eqn:Eq; [| reflexivity].
    destruct (check_array scam) eqn:Es; [| reflexivity].
    destruct (check_array legit) eqn:El; [| reflexivity].
    destruct (Nat.eqb (cols query) (cols scam)) eqn:Ecs; [| reflexivity].
    destruct (Nat.eqb (cols query) (cols legit)) eqn:Ecl; [| reflexivity].
    exfalso. apply check_array_true in Eq, Es, El.
    apply Nat.eqb_eq in Ecs, Ecl.
    destruct (@classify_some query scam legit) as (s & l & _ & _ & E);
      try tauto; try congruence.
  - intros Hbad. rewrite classify_by_scores.
    unfold max_similarity, cosine_similarity.
    destruct (check_array query); [| reflexivity].
    destruct (check_array scam); [| reflexivity].
    destruct (Nat.eqb (cols query) (cols scam)); [| reflexivity].
    cbn [andb].
    destruct (check_array legit); cbn [andb];
      [| match goal with
         | |- context [ndarray_max ?K] => destruct (ndarray_max K)
         end; reflexivity].
    destruct (Nat.eqb (cols query) (cols legit));
      [discriminate |
       match goal with
       | |- context [ndarray_max ?K] => destruct (ndarray_max K)
       end; reflexivity].
Qed.

(** The classification raises exactly on ill-shaped input: an empty query
    or reference set, vectors without entries, or different dimensions. *)
Theorem classify_fails_iff_ill_shaped (query scam legit : array2 R) :
  classify query scam legit = None <-> well_shaped query scam legit = false.
Proof. apply classify_fails_iff_ill_shaped_aux. Qed.

(** Leaving reference patterns out never raises a score, and repeating or
    reordering them does not change it. *)
Theorem fewer_references_never_raise_the_score
        (query refs : array2 R) (idx : list nat) (v : R) :
  valid_selection idx (rows refs) ->
  max_similarity query (take_rows idx refs) = Some v ->
  exists v',
    max_similarity query refs = Some v' /\ v <= v' /\
    ((forall j, (j < rows refs)%nat -> In j idx) -> v = v').
Proof.
  intros Hvalid Hv.
  destruct (max_similarity_shapes _ _ Hv) as (Hq & Hc & Hlen & Hcols).
  destruct (max_similarity_inv _ _ Hv)
    as (_ & (i & j & Hi & Hj & E) & Hub).
  cbn [rows cols take_rows] in Hlen, Hcols, Hj, Hub.
  rewrite cos_sim_take_rows in E.
  assert (Hin : In (nth j idx 0%nat) idx) by (apply nth_In; exact Hj).
  assert (Hr : (0 < rows refs)%nat) by (apply Hvalid in Hin; lia).
  destruct (@max_similarity_some query refs Hq Hc Hr Hcols) as (v' & Hv').
  exists v'. split; [exact Hv' |].
  destruct (max_similarity_inv _ _ Hv')
    as (_ & (i' & j' & Hi' & Hj' & E') & Hub').
  split.
  - rewrite E. apply Hub'; [exact Hi | apply Hvalid; exact Hin].
  - intros Hall. apply Rle_antisym.
    + rewrite E. apply Hub'; [exact Hi | apply Hvalid; exact Hin].
    + destruct (In_nth idx j' 0%nat (Hall j' Hj')) as (n & Hn & Hnth).
      rewrite E', <- Hnth, <- cos_sim_take_rows. apply Hub; assumption.
Qed.

Lemma fewer_references_witness :
  exists v,
    (valid_selection [2; 0]%nat (rows legit2) /\
     max_similarity query2 (take_rows [2; 0]%nat legit2) = Some v) /\
    exists v',
      max_similarity query2 legit2 = Some v' /\ v <= v' /\
      ((forall j, (j < rows legit2)%nat -> In j [2; 0]%nat) -> v = v').
Proof.
  assert (Hvalid : valid_selection [2; 0]%nat (rows legit2)).
  { intros j [<- | [<- | []]]; cbn; lia. }
  destruct (@max_similarity_some query2 (take_rows [2; 0]%nat legit2))
    as (v & Hv); try (cbn; lia); try reflexivity.
  exists v. split; [split; assumption |].
  exact (@fewer_references_never_raise_the_score
           query2 legit2 [2; 0]%nat v Hvalid Hv).
Defined.

End ClassifierProperties.

(** ** Further properties of the vocabulary export
    (convert_minilm_to_onnx.py, step 4) *)

Section VocabProperties.

Import String VocabExport VocabProps.
Local Open Scope string_scope.

(** Two ascending lists with the same elements are the same list. *)
Lemma ascending_perm_unique (l1 l2 : list Z) :
  StronglySorted Z.le l1 -> StronglySorted Z.le l2 ->
  Permutation l1 l2 -> l1 = l2.
Proof.
  revert l2. induction l1 as [| a l1 IH]; intros l2 H1 H2 Hp.
  - apply Permutation_nil in Hp. subst. reflexivity.
  - destruct l2 as [| b l2].
    + apply Permutation_sym, Permutation_nil in Hp. discriminate.
    + inversion H1 as [| ? ? Hs1 Ha]; subst.
      inversion H2 as [| ? ? Hs2 Hb]; subst.
      assert (Hab : a = b).
      { assert (Hina : In a (b :: l2))
          by (apply (Permutation_in _ Hp); left; reflexivity).
        assert (Hinb : In b (a :: l1))
          by (apply (Permutation_in _ (Permutation_sym Hp)); left;
              reflexivity).
        rewrite Forall_forall in Ha, Hb.
        destruct Hina as [-> | Hina]; [reflexivity |].
        destruct Hinb as [-> | Hinb]; [reflexivity |].
        specialize (Ha _ Hinb). specialize (Hb _ Hina). lia. }
      subst b. f_equal. apply IH; try assumption.
      eapply Permutation_cons_inv. exact Hp.
Qed.

Lemma ascending_ids_map (l : list (string * Z)) :
  ascending_ids l -> StronglySorted Z.le (map snd l).
Proof.
  unfold ascending_ids. induction 1 as [| x l Hs IH Hall]; simpl.
  - constructor.
  - constructor; [exact IH |]. rewrite Forall_map. exact Hall.
Qed.

Lemma ascending_seq (start n : nat) :
  StronglySorted Z.le (map Z.of_nat (seq start n)).
Proof.
  revert start. induction n as [| n IH]; intros start; simpl.
  - constructor.
  - constructor; [apply IH |]. rewrite Forall_map, Forall_forall.
    intros x Hx. apply in_seq in Hx. lia.
Qed.

(** With consecutive ids the sorted ids are 0, 1, ..., n-1. *)
Lemma sorted_ids_consecutive (tokenizer : Tokenizer) :
  consecutive_ids (get_vocab tokenizer) ->
  map snd (sorted_vocab tokenizer) =
  map Z.of_nat (seq 0 (List.length (get_vocab tokenizer))).
Proof.
  intros Hc. apply ascending_perm_unique.
  - apply ascending_ids_map. apply sorted_by_id_sorted.
  - apply ascending_seq.
  - apply perm_trans with (map snd (get_vocab tokenizer)); [| exact Hc].
    apply Permutation_map. apply sorted_by_id_perm.
Qed.

(** Reading the file back: when the ids are 0, ..., n-1 and no token holds a
    line feed, the line number of a token is its id, and every line is the
    token of that id. *)
Theorem line_number_is_token_id (tokenizer : Tokenizer) :
  Forall (fun item => has_LF (fst item) = false) (get_vocab tokenizer) ->
  consecutive_ids (get_vocab tokenizer) ->
  (forall token id,
      In (token, id) (get_vocab tokenizer) ->
      nth_error (vocab_file_lines tokenizer) (Z.to_nat id) = Some token) /\
  (forall n token,
      nth_error (vocab_file_lines tokenizer) n = Some token ->
      In (token, Z.of_nat n) (get_vocab tokenizer)).
Proof.
  intros Hlf Hc.
  pose proof (vocab_file_lines_are_sorted_tokens tokenizer Hlf) as Hlines.
  pose proof (sorted_ids_consecutive tokenizer Hc) as Hids.
  pose proof (sorted_by_id_perm (get_vocab tokenizer)) as Hperm.
  fold (sorted_vocab tokenizer) in Hperm.
  assert (Hlen : List.length (sorted_vocab tokenizer) =
                 List.length (get_vocab tokenizer))
    by (apply Permutation_length; exact Hperm).
  assert (Hid : forall n item,
             nth_error (sorted_vocab tokenizer) n = Some item ->
             snd item = Z.of_nat n).
  { intros n item Hn.
    assert (H1 : nth_error (map snd (sorted_vocab tokenizer)) n =
                 Some (snd item))
      by (rewrite nth_error_map, Hn; reflexivity).
    rewrite Hids, nth_error_map in H1.
    assert (Hlt : (n < List.length (get_vocab tokenizer))%nat).
    { rewrite <- Hlen. apply nth_error_Some. congruence. }
    rewrite nth_error_seq in H1.
    destruct (Nat.ltb_spec n (List.length (get_vocab tokenizer)));
      [| lia].
    simpl in H1. inversion H1. reflexivity. }
  split.
  - intros token id Hin.
    apply (Permutation_in _ (Permutation_sym Hperm)) in Hin.
    apply In_nth_error in Hin. destruct Hin as (n & Hn).
    pose proof (Hid n _ Hn) as E. simpl in E. subst id.
    rewrite Nat2Z.id, Hlines, nth_error_map, Hn. reflexivity.
  - intros n token Hn. rewrite Hlines, nth_error_map in Hn.
    destruct (nth_error (sorted_vocab tokenizer) n) as [[t id] |] eqn:E;
      [| discriminate].
    simpl in Hn. inversion Hn. subst t.
    pose proof (Hid n _ E) as E'. simpl in E'. subst id.
    apply (Permutation_in _ Hperm). eapply nth_error_In. exact E.
Qed.

Lemma line_number_witness :
  (Forall (fun item => has_LF (fst item) = false) (get_vocab small_tokenizer)
   /\ consecutive_ids (get_vocab small_tokenizer)) /\
  (forall token id,
      In (token, id) (get_vocab small_tokenizer) ->
      nth_error (vocab_file_lines small_tokenizer) (Z.to_nat id)
      = Some token) /\
  (forall n token,
      nth_error (vocab_file_lines small_tokenizer) n = Some token ->
      In (token, Z.of_nat n) (get_vocab small_tokenizer)).
Proof.
  assert (H1 : Forall (fun item => has_LF (fst item) = false)
                      (get_vocab small_tokenizer))
    by (repeat constructor).
  assert (H2 : consecutive_ids (get_vocab small_tokenizer)).
  { unfold consecutive_ids. cbn.
    apply perm_trans with [0%Z; 2%Z; 1%Z].
    - apply perm_swap.
    - apply perm_skip. apply perm_swap. }
  split; [split; assumption |].
  exact (line_number_is_token_id small_tokenizer H1 H2).
Defined.

Lemma read_lines_count (t rest : string) :
  List.length (read_lines (t ++ String LF rest)) =
  (count_LF t + 1 + List.length (read_lines rest))%nat.
Proof.
  induction t as [| c t IH]; simpl.
  - reflexivity.
  - destruct (Ascii.eqb c LF).
    + simpl. rewrite IH. lia.
    + destruct (read_lines (t ++ String LF rest)) as [| l ls];
        simpl in *; lia.
Qed.

Lemma written_line_count (l : list (string * Z)) :
  List.length
    (read_lines (fold_right (fun item rest => fst item ++ String LF rest)
                            "" l))
  = (List.length l + line_feeds l)%nat.
Proof.
  unfold line_feeds. induction l as [| x l IH]; simpl.
  - reflexivity.
  - rewrite read_lines_count, IH. lia.
Qed.

Lemma line_feeds_perm (l l' : list (string * Z)) :
  Permutation l l' -> line_feeds l = line_feeds l'.
Proof.
  unfold line_feeds. induction 1; simpl; lia.
Qed.

Lemma has_LF_count (s : string) : has_LF s = true -> (0 < count_LF s)%nat.
Proof.
  induction s as [| c s IH]; simpl; [discriminate |].
  destruct (Ascii.eqb c LF); simpl; [lia | exact IH].
Qed.

Lemma line_feeds_in (l : list (string * Z)) (item : string * Z) :
  In item l -> (count_LF (fst item) <= line_feeds l)%nat.
Proof.
  unfold line_feeds. induction l as [| x l IH]; simpl; [contradiction |].
  intros [-> | Hin]; [lia |]. specialize (IH Hin). lia.
Qed.

(** The written file has one line per vocabulary entry plus one line per
    line feed inside a token: a token that holds a line feed makes the file
    longer than the vocabulary. *)
Theorem vocab_line_count (tokenizer : Tokenizer) :
  List.length (vocab_file_lines tokenizer) =
    (List.length (get_vocab tokenizer) + line_feeds (get_vocab tokenizer))%nat
  /\
  (forall item, In item (get_vocab tokenizer) -> has_LF (fst item) = true ->
                (List.length (get_vocab tokenizer) <
                 List.length (vocab_file_lines tokenizer))%nat).
Proof.
  pose proof (sorted_by_id_perm (get_vocab tokenizer)) as Hperm.
  assert (E : List.length (vocab_file_lines tokenizer) =
              (List.length (get_vocab tokenizer) +
               line_feeds (get_vocab tokenizer))%nat).
  { unfold vocab_file_lines, vocab_file. rewrite written_text. simpl.
    rewrite written_line_count. unfold sorted_vocab.
    rewrite (Permutation_length Hperm), (line_feeds_perm Hperm).
    reflexivity. }
  split; [exact E |].
  intros item Hin Hlf. rewrite E.
  pose proof (line_feeds_in _ _ Hin). pose proof (has_LF_count _ Hlf). lia.
Qed.

Lemma vocab_line_count_witness :
  (In (String "a" (String LF "b"), 1%Z)
      (get_vocab tokenizer_with_line_feed) /\
   has_LF (String "a" (String LF "b")) = true) /\
  (List.length (get_vocab tokenizer_with_line_feed) <
   List.length (vocab_file_lines tokenizer_with_line_feed))%nat.
Proof.
  assert (H1 : In (String "a" (String LF "b"), 1%Z)
                  (get_vocab tokenizer_with_line_feed))
    by (right; left; reflexivity).
  assert (H2 : has_LF (String "a" (String LF "b")) = true) by reflexivity.
  split; [split; assumption |].
  exact (proj2 (vocab_line_count tokenizer_with_line_feed) _ H1 H2).
Defined.

Example vocab_with_line_feed :
  vocab_file_lines tokenizer_with_line_feed = ["[PAD]"; "a"; "b"] /\
  List.length (get_vocab tokenizer_with_line_feed) = 2%nat.
Proof. split; reflexivity. Qed.

End VocabProperties.

(** ** Further properties of the flow of control
    (convert_minilm_to_onnx.py) *)

Section ScriptProperties.

Import String OnnxScript.
Local Open Scope string_scope.

Ltac unfold_script :=
  unfold run, script, step1, step2, step3, step4, step5, step6, summary,
         quantization_body, quantization_handler, inference_handler,
         try_except, seq_, call, print, assign_final_model_path,
         setup_raises, quantization_raises, file_export_raises, first_raise,
         caught in *;
  cbn -[append] in *.

Ltac case_call :=
  match goal with
  | H : context [match ?x with _ => _ end] |- _ =>
      is_var x; destruct x as [[?m | ?m] |]; cbn -[append] in *
  | |- context [match ?x with _ => _ end] =>
      is_var x; destruct x as [[?m | ?m] |]; cbn -[append] in *
  end.

Ltac close_case :=
  try discriminate; try congruence;
  repeat match goal with
         | H : _ /\ _ |- _ => destruct H
         | H : exists _, _ |- _ => destruct H
         end;
  try discriminate; try congruence;
  repeat split; try reflexivity; try congruence;
  try solve [eexists; reflexivity].

Ltac all_cases := unfold_script; repeat (close_case; case_call); close_case.

(** The run completes exactly when the steps outside the two [try] blocks
    succeed and neither block meets an exception that is not an
    [Exception]. *)
Theorem run_completes_iff (w : world) :
  snd (run w) = Normal <->
  setup_raises w = None /\ caught (quantization_raises w) = true /\
  file_export_raises w = None /\ caught (test_inference w) = true.
Proof. destruct w. split; intros H; all_cases. Qed.

(** Which model the rest of the script uses: the quantised one exactly when
    the quantisation step was reached and completed, the unquantised one
    exactly when it was reached and raised an [Exception]; a run that
    completes always has one of the two. *)
Theorem final_model_path_cases (w : world) :
  (final_model_path (fst (run w)) = Some quantized_model_path <->
   setup_raises w = None /\ quantization_raises w = None) /\
  (final_model_path (fst (run w)) = Some onnx_model_path <->
   setup_raises w = None /\
   exists msg, quantization_raises w = Some (Exception msg)) /\
  (snd (run w) = Normal -> final_model_path (fst (run w)) <> None).
Proof.
  destruct w. split; [| split]; [split | split |]; intros H; all_cases.
Qed.

Ltac no_such_line H :=
  cbn in H;
  repeat match type of H with
         | _ \/ _ => destruct H as [H | H]; [try discriminate H |]
         end;
  try discriminate H; try contradiction.

Ltac find_line := solve [repeat (first [left; reflexivity | right])].

(** The console can be trusted: the quantisation warning is printed exactly
    in the runs that fall back to the unquantised model. *)
Theorem quantization_warning_iff_fallback (w : world) :
  (exists msg,
      In ("[WARNING] Quantization failed: " ++ msg) (stdout (fst (run w))))
  <-> final_model_path (fst (run w)) = Some onnx_model_path.
Proof.
  destruct w. split.
  - intros [msg H]. unfold_script. repeat case_call;
      first [reflexivity | exfalso; no_such_line H].
  - intros H. unfold_script. repeat case_call; try discriminate;
      eexists; find_line.
Qed.

Import NpFloat Numpy OnnxPooling PoolingProps OnnxInference Inputs.

Lemma inference_body_pooling (h : array3 fval) (m : array2 Z) :
  inference_body (inr (h, m)) =
  if broadcastable h m then None else Some (Exception broadcast_error).
Proof.
  unfold inference_body. destruct (broadcastable h m) eqn:E.
  - destruct (broadcastable_success h m E) as (out & -> & _). reflexivity.
  - destruct (not_broadcastable_failure h m E) as (_ & _ & ->). reflexivity.
Qed.

(** Whatever the session delivers, the pooling of the test inference cannot
    abort the export: the run completes; the console reports success when
    the shapes broadcast (also when the embedding is NaN), and the warning
    otherwise. *)
Theorem pooling_never_aborts_the_export
        (w : world) (h : array3 fval) (m : array2 Z) :
  setup_raises w = None ->
  caught (quantization_raises w) = true ->
  file_export_raises w = None ->
  snd (run (with_inference w (inr (h, m)))) = Normal /\
  (broadcastable h m = true ->
   In "[OK] Test inference successful"
      (stdout (fst (run (with_inference w (inr (h, m))))))) /\
  (broadcastable h m = false ->
   In ("[WARNING] Test inference failed: " ++ broadcast_error)
      (stdout (fst (run (with_inference w (inr (h, m))))))).
Proof.
  destruct w. unfold with_inference. rewrite inference_body_pooling.
  cbn [OnnxScript.load_tokenizer OnnxScript.load_model
       OnnxScript.export_onnx OnnxScript.import_quantization
       OnnxScript.quantize_dynamic OnnxScript.stat_quantized
       OnnxScript.compression_ratio OnnxScript.write_vocab
       OnnxScript.write_config].
  intros Hs Hq Hf.
  destruct (broadcastable h m); unfold_script;
    repeat (try discriminate; case_call); try discriminate;
    (split; [reflexivity |]); split; intros E; try discriminate E;
    find_line.
Qed.

Lemma pooling_never_aborts_witness :
  (setup_raises all_fine = None /\
   caught (quantization_raises all_fine) = true /\
   file_export_raises all_fine = None) /\
  snd (run (with_inference all_fine (inr (hidden22, mask_too_long))))
    = Normal /\
  In ("[WARNING] Test inference failed: " ++ broadcast_error)
     (stdout (fst (run (with_inference all_fine
                                       (inr (hidden22, mask_too_long)))))) /\
  In "[OK] Test inference successful"
     (stdout (fst (run (with_inference all_fine
                                       (inr (hidden22, mask_first_only)))))).
Proof.
  split; [repeat split |].
  destruct (@pooling_never_aborts_the_export all_fine hidden22 mask_too_long
              eq_refl eq_refl eq_refl) as (Hn & _ & Hw).
  destruct (@pooling_never_aborts_the_export all_fine hidden22
              mask_first_only eq_refl eq_refl eq_refl) as (_ & Hok & _).
  split; [exact Hn |]. split; [exact (Hw eq_refl) | exact (Hok eq_refl)].
Defined.

End ScriptProperties.

(** ** Further properties of the placeholder embeddings
    (generate_embeddings_simple.py) *)

Section PlaceholderProperties.

Import NpFloat Numpy Placeholder PlaceholderLoop.
Import String.

(** The argument of [np.random.seed] is always a valid seed, between 0 and
    2**32 - 1, whatever the hash (also a negative one). *)
Theorem seed_is_always_valid (secret : hash_secret) (pattern : string) :
  (0 <= seed_of secret pattern <= 2 ^ 32 - 1)%Z.
Proof.
  unfold seed_of.
  pose proof (Z.mod_pos_bound (py_hash secret pattern) (2 ^ 32)) as H.
  assert (Hpos : (0 < 2 ^ 32)%Z) by reflexivity.
  specialize (H Hpos). lia.
Qed.

Section Loop.

Variable rng_state : Type.
Variable seed_state : Z -> rng_state.
Variable next_normal : rng_state -> R * rng_state.


Lemma randn_nth (n : nat) (st : rng_state) (k : nat) :
  (k < n)%nat -> nth k (fst (randn next_normal n st)) 0%R = draw next_normal st k.
Proof.
  revert st k.
  induction n as [| n IH]; intros st k Hk; [lia |].
  cbn [PlaceholderLoop.randn].
  destruct (next_normal st) as [x st1] eqn:E1.
  destruct (PlaceholderLoop.randn next_normal n st1) as [xs st2] eqn:E2.
  destruct k as [| k]; cbn [fst nth].
  - unfold PlaceholderLoop.draw. cbn [advance]. rewrite E1. reflexivity.
  - assert (Hk' : (k < n)%nat) by lia.
    specialize (IH st1 k Hk'). rewrite E2 in IH. cbn [fst] in IH.
    rewrite IH. unfold PlaceholderLoop.draw. cbn [advance].
    rewrite E1. reflexivity.
Qed.

(** The embedding the loop computes for a pattern is the one of the
    stream of its seed. *)
Lemma normalized_seeded_draws (secret : hash_secret) (pattern : string)
      (k : nat) :
  (k < EMBEDDING_DIM)%nat ->
  item1 (normalized (fst (seeded_draws seed_state next_normal
                                       secret pattern))) k =
  item1 (placeholder_embedding (stream seed_state next_normal)
                               secret pattern) k.
Proof.
  intros Hk.
  unfold normalized, placeholder_embedding, divide_scalar, random_vector,
    linalg_norm, seeded_draws.
  cbn [item1 size].
  rewrite (@randn_nth EMBEDDING_DIM _ k Hk). f_equal. f_equal.
  apply reduce_add_ext. intros j Hj.
  rewrite (@randn_nth EMBEDDING_DIM _ j Hj). reflexivity.
Qed.

Lemma loop_result (secret : hash_secret) (patterns : list string)
      (acc : list array1) (st : rng_state) :
  fst (fold_left (loop_body seed_state next_normal secret) patterns
                 (acc, st)) =
  acc ++ map (fun pattern =>
                normalized (fst (seeded_draws seed_state next_normal
                                              secret pattern)))
             patterns.
Proof.
  revert acc st. induction patterns as [| p ps IH]; intros acc st.
  - cbn. rewrite app_nil_r. reflexivity.
  - cbn [fold_left map]. unfold loop_body at 2.
    destruct (seeded_draws seed_state next_normal secret p)
      as [draws st'] eqn:E.
    rewrite IH, <- app_assoc. reflexivity.
Qed.

Lemma generate_items (secret : hash_secret) (patterns : list string)
      (st : rng_state) (i k : nat) :
  (k < EMBEDDING_DIM)%nat ->
  item2 (fst (generate seed_state next_normal secret patterns st)) i k =
  item2 (embeddings_of (stream seed_state next_normal) secret patterns) i k.
Proof.
  intros Hk. unfold generate.
  pose proof (loop_result secret patterns [] st) as Hres.
  destruct (fold_left (loop_body seed_state next_normal secret) patterns
                      ([], st)) as [embeddings st'].
  cbn [fst] in *. cbn [app] in Hres. subst embeddings.
  unfold embeddings_of, np_array. cbn [item2].
  destruct (Nat.lt_ge_cases i (List.length patterns)) as [Hi | Hi].
  - rewrite (nth_indep _ _ (normalized
               (fst (seeded_draws seed_state next_normal secret
                                  EmptyString))))
      by (rewrite length_map; exact Hi).
    rewrite (map_nth (fun pattern =>
                        normalized (fst (seeded_draws seed_state next_normal
                                                      secret pattern)))).
    rewrite (nth_indep _ _ (placeholder_embedding
                              (stream seed_state next_normal)
                              secret EmptyString))
      by (rewrite length_map; exact Hi).
    rewrite (map_nth (placeholder_embedding (stream seed_state next_normal)
                                            secret)).
    apply normalized_seeded_draws. exact Hk.
  - rewrite !nth_overflow by (rewrite length_map; exact Hi). reflexivity.
Qed.

Lemma generate_shape (secret : hash_secret) (patterns : list string)
      (st : rng_state) :
  rows (fst (generate seed_state next_normal secret patterns st)) =
  List.length patterns /\
  cols (fst (generate seed_state next_normal secret patterns st)) =
  EMBEDDING_DIM.
Proof.
  unfold generate.
  pose proof (loop_result secret patterns [] st) as Hres.
  destruct (fold_left (loop_body seed_state next_normal secret) patterns
                      ([], st)) as [embeddings st'].
  cbn [fst] in *. cbn [app] in Hres. subst embeddings.
  unfold np_array. cbn [rows cols]. rewrite length_map. split; reflexivity.
Qed.

(** The two loops on the global generator produce the arrays of the
    stream of each pattern's seed: because every pass re-seeds, a row
    depends on its own pattern only, not on the state the generator was in
    before the script, on the patterns before it, or on the other loop. *)
Theorem rows_depend_on_their_pattern_only
        (secret : hash_secret) (st : rng_state) :
  let scam := fst (generate_both seed_state next_normal secret st) in
  let legit := snd (generate_both seed_state next_normal secret st) in
  rows scam = List.length scam_patterns /\ cols scam = EMBEDDING_DIM /\
  rows legit = List.length legitimate_patterns /\
  cols legit = EMBEDDING_DIM /\
  forall i k, (k < EMBEDDING_DIM)%nat ->
              item2 scam i k =
              item2 (scam_embeddings (stream seed_state next_normal)
                                     secret) i k /\
              item2 legit i k =
              item2 (legitimate_embeddings (stream seed_state next_normal)
                                           secret) i k.
Proof.
  unfold generate_both.
  pose proof (generate_shape secret scam_patterns st) as [Hr1 Hc1].
  pose proof (generate_items secret scam_patterns st) as Hi1.
  destruct (generate seed_state next_normal secret scam_patterns st)
    as [scam st1].
  pose proof (generate_shape secret legitimate_patterns st1) as [Hr2 Hc2].
  pose proof (generate_items secret legitimate_patterns st1) as Hi2.
  destruct (generate seed_state next_normal secret legitimate_patterns st1)
    as [legit st2].
  cbn [fst snd] in *.
  repeat (split; [assumption |]).
  intros i k Hk. split; [apply Hi1 | apply Hi2]; exact Hk.
Qed.

End Loop.

End PlaceholderProperties.

(** ** The flow of control of convert_minilm_to_tflite.py *)

Section TfliteProperties.

Import NpFloat Numpy Classifier ClassifierProps TfliteScript Inputs.
Import String.
Local Open Scope string_scope.

Ltac unfold_tflite :=
  unfold run, script, similarity_test, bind, ret, print, call, result_of,
    np_save in *;
  cbn -[append classify] in *.

(** The reference embeddings are on disk before the similarity test
    starts: once both arrays are encoded and saved, they stay saved however
    the rest of the run ends; a missing scikit-learn ends the run only
    after both files were written. *)
Theorem embeddings_are_saved_before_the_test
        (w : world) (scam legit : array2 R) :
  embeddings_saved w scam legit ->
  saved (fst (run w)) =
    [(scam_embeddings_npy, scam); (legitimate_embeddings_npy, legit)] /\
  (forall test e,
      encode_test w = inr test -> import_sklearn w = Some e ->
      snd (run w) = inl e).
Proof.
  destruct w as [lm md es el ss sl et isk].
  intros (H1 & H2 & H3 & H4 & H5 & H6). cbn in *. subst.
  split.
  - unfold_tflite. destruct et as [e | test]; cbn -[append classify];
      [reflexivity |].
    destruct isk as [e |]; cbn -[append classify]; [reflexivity |].
    destruct (classify test scam legit); reflexivity.
  - intros test e -> ->. reflexivity.
Qed.

Lemma saved_before_test_witness :
  embeddings_saved (world_without_sklearn scam2 legit2 query2) scam2 legit2
  /\
  saved (fst (run (world_without_sklearn scam2 legit2 query2))) =
    [(scam_embeddings_npy, scam2); (legitimate_embeddings_npy, legit2)] /\
  snd (run (world_without_sklearn scam2 legit2 query2)) =
    inl (OnnxScript.Exception "No module named sklearn").
Proof.
  assert (H : embeddings_saved (world_without_sklearn scam2 legit2 query2)
                               scam2 legit2)
    by (repeat split).
  split; [exact H |].
  destruct (embeddings_are_saved_before_the_test H) as [Hs Hr].
  split; [exact Hs |]. exact (Hr query2 _ eq_refl eq_refl).
Defined.

(** Nothing is saved before both encodings succeeded, and the file of the
    legitimate patterns is never written without the file of the scam
    patterns. *)
Theorem saved_files_are_all_or_nothing (w : world) :
  saved (fst (run w)) = [] \/
  (exists scam, encode_scam w = inr scam /\
                (exists legit, encode_legitimate w = inr legit) /\
                saved (fst (run w)) = [(scam_embeddings_npy, scam)]) \/
  (exists scam legit,
      encode_scam w = inr scam /\ encode_legitimate w = inr legit /\
      saved (fst (run w)) =
        [(scam_embeddings_npy, scam); (legitimate_embeddings_npy, legit)]).
Proof.
  destruct w as [lm md es el ss sl et isk]. unfold_tflite.
  destruct lm; cbn -[append classify]; [left; reflexivity |].
  destruct md; cbn -[append classify]; [left; reflexivity |].
  destruct es as [e | scam]; cbn -[append classify]; [left; reflexivity |].
  destruct el as [e | legit]; cbn -[append classify]; [left; reflexivity |].
  destruct ss; cbn -[append classify]; [left; reflexivity |].
  destruct sl; cbn -[append classify].
  - right. left. exists scam. split; [reflexivity |].
    split; [exists legit |]; reflexivity.
  - right. right. exists scam, legit.
    split; [reflexivity |]. split; [reflexivity |].
    destruct et as [e | test]; cbn -[append classify]; [reflexivity |].
    destruct isk; cbn -[append classify]; [reflexivity |].
    destruct (classify test scam legit); reflexivity.
Qed.

(** When every call returns, the run completes exactly on well-shaped
    arrays, and the console then shows the label of the classification:
    SCAM exactly when the scam score is strictly the larger. *)
Theorem printed_label_is_the_classification
        (scam legit test : array2 R) :
  (well_shaped test scam legit = true ->
   exists r,
     classify test scam legit = Some r /\
     snd (run (world_of scam legit test)) = inr tt /\
     In ("  Classification: " ++ label_text (verdict r))
        (stdout (fst (run (world_of scam legit test)))) /\
     (In "  Classification: SCAM"
         (stdout (fst (run (world_of scam legit test))))
      <-> (scam_sim r > legit_sim r)%R)) /\
  (well_shaped test scam legit = false ->
   snd (run (world_of scam legit test)) =
     inl (OnnxScript.Exception value_error)).
Proof.
  split; intros Hw.
  - destruct (classify test scam legit) as [r |] eqn:E.
    2:{ apply classify_fails_iff_ill_shaped_aux in E. congruence. }
    exists r. split; [reflexivity |].
    unfold_tflite. rewrite E. cbn -[append].
    split; [reflexivity |].
    split; [repeat (first [left; reflexivity | right]) |].
    assert (Hv : verdict r = SCAM <-> (scam_sim r > legit_sim r)%R).
    { rewrite classify_by_scores in E.
      destruct (max_similarity test scam); [| discriminate].
      destruct (max_similarity test legit); [| discriminate].
      inversion E. cbn. apply classification_strict. }
    rewrite <- Hv. split.
    + intros H. destruct (verdict r); [reflexivity |]. exfalso.
      cbn in H.
      repeat match type of H with
             | _ \/ _ => destruct H as [H | H]; [try discriminate H |]
             end; try discriminate H; contradiction.
    + intros ->. repeat (first [left; reflexivity | right]).
  - apply classify_fails_iff_ill_shaped_aux in Hw.
    unfold_tflite. rewrite Hw. reflexivity.
Qed.

End TfliteProperties.
